(** * Azure log forwarder: the per-batch record pipeline of [logs_ingest/main.py]

    A shallow embedding of [process_logs], [process_record], [is_too_old],
    [deserialize_properties], [parse_record] and [extract_cloud_log_forwarder],
    followed by the properties of the pipeline that the specification states.

    Conventions of the embedding.
    - Python values that travel through the pipeline (decoded JSON, attribute
      values) are the inductive [pyval]; JSON floats are left out.
    - A Python [str] is a Rocq [string]; one [ascii] stands for one character.
    - The raw record is a [pyval]; the parsed record, a [dict] keyed by
      strings, is a [gmap string pyval].
    - Mutation of [self_monitoring] and [dt_payload], the clock and the calls
      to the outside world are threaded through a state-and-exception monad
      in which a raised exception keeps the mutations made before it.
    - [logging.info] and [logging.exception] write to a sink and are not
      part of the state; they are taken not to raise. The two calls of the
      self-monitoring flush are recorded in the world and are taken not to
      raise either.
    - Durations are exact integers in microseconds. [total_seconds()] is
      the float Python computes from one: the binary64 nearest to the
      count divided by 10^6, ties to even. It is compared exactly with the
      integer [record_age_limit - 60], as Python compares a float with an
      integer. *)

From Stdlib Require Import ZArith Ascii String List Bool Lia.
From stdpp Require Import gmap strings list fin_maps pretty.

Local Open Scope string_scope.
Local Open Scope list_scope.
Local Open Scope Z_scope.

(** ** Python values *)

#[warnings="-register-all"]
Inductive pyval : Type :=
| PNone
| PBool (b : bool)
| PInt (n : Z)
| PStr (s : string)
| PList (items : list pyval)
| PDict (entries : list (string * pyval)).

(** Truth value of an object in a condition ([if x:]). *)
Definition truthy (v : pyval) : bool :=
  match v with
  | PNone => false
  | PBool b => b
  | PInt n => negb (n =? 0)
  | PStr s => negb (String.eqb s "")
  | PList items => match items with [] => false | _ => true end
  | PDict entries => match entries with [] => false | _ => true end
  end.

(** [isinstance(v, str)] *)
Definition is_str (v : pyval) : bool :=
  match v with PStr _ => true | _ => false end.

(** [len(s)] of a string, as a Python integer. *)
Definition len (s : string) : Z := Z.of_nat (String.length s).

(** The slice [s[:n]]: a negative bound counts from the end, a bound past
    the end is clipped. *)
Definition py_slice_to (s : string) (n : Z) : string :=
  let stop := if n <? 0 then Z.max 0 (len s + n) else Z.min n (len s) in
  String.substring 0 (Z.to_nat stop) s.

(** ** Exceptions and results *)

Inductive exn : Type :=
| JSONDecodeError
| UnicodeDecodeError
| AttributeError
| TypeError
| ParserError
| KeyError
| ConfigurationError (message : string)
| CollaboratorError (who : string).

Inductive result (A : Type) : Type :=
| Ok (a : A)
| Raise (e : exn).
Arguments Ok {A} a.
Arguments Raise {A} e.

(** ** Dictionaries inside raw JSON

    A decoded JSON object keeps its keys in insertion order. *)

Fixpoint dict_get (entries : list (string * pyval)) (key : string) : option pyval :=
  match entries with
  | [] => None
  | (k, v) :: rest => if String.eqb k key then Some v else dict_get rest key
  end.

Fixpoint dict_set (entries : list (string * pyval)) (key : string) (value : pyval)
  : list (string * pyval) :=
  match entries with
  | [] => [(key, value)]
  | (k, v) :: rest =>
      if String.eqb k key then (k, value) :: rest
      else (k, v) :: dict_set rest key value
  end.

Definition dict_has (entries : list (string * pyval)) (key : string) : bool :=
  match dict_get entries key with Some _ => true | None => false end.

(** [obj.keys()] / [obj.get(...)] exist on dictionaries only. *)
Definition as_dict (v : pyval) : result (list (string * pyval)) :=
  match v with
  | PDict entries => Ok entries
  | _ => Raise AttributeError
  end.

(** [for x in v]: lists yield their items, dictionaries their keys, strings
    their characters; other values are not iterable. *)
Definition py_iter (v : pyval) : result (list pyval) :=
  match v with
  | PList items => Ok items
  | PDict entries => Ok (map (fun kv => PStr (fst kv)) entries)
  | PStr s => Ok (map (fun c => PStr (String c EmptyString)) (list_ascii_of_string s))
  | _ => Raise TypeError
  end.

(** ** Dates

    A [datetime] is its wall-clock reading in microseconds and, when it is
    timezone-aware, its offset from UTC in microseconds. *)

Record datetime : Type := mkDatetime {
  wall_us : Z;
  utcoffset : option Z
}.

(** [a - b] on datetimes, as a number of microseconds: two aware values are
    compared on the UTC line, two naive ones by their readings, and mixing
    the two kinds raises [TypeError]. *)
Definition datetime_sub (a b : datetime) : result Z :=
  match utcoffset a, utcoffset b with
  | Some oa, Some ob => Ok ((wall_us a - oa) - (wall_us b - ob))
  | None, None => Ok (wall_us a - wall_us b)
  | _, _ => Raise TypeError
  end.

(** *** The float [total_seconds()]

    [timedelta.total_seconds()] divides the count of microseconds by
    [10**6]; the division of two integers returns the binary64 nearest to
    the quotient, ties to even. A quotient that is not zero has a magnitude
    of [10^-6] at least, so its binary64 is a multiple of [2^-72]: a float
    is represented here by that multiple, the integer [x * 2^72]. *)

(** [n / d] rounded to the nearest integer, ties to even, for [d > 0]. *)
Definition round_half_even_div (n d : Z) : Z :=
  let q := n / d in
  let r := n mod d in
  if 2 * r <? d then q
  else if d <? 2 * r then q + 1
  else if Z.even q then q else q + 1.

(** The binary64 nearest to [a / 10^6] for [a > 0], times [2^72]. With
    [2^k <= a / 10^6 < 2^(k+1)], the 53 bits of the significand are the
    quotient in units of [2^(k-52)], that is [2^s] of the [2^-72] with
    [s = k + 20]. *)
Definition float64_of_micro_pos (a : Z) : Z :=
  let s := Z.log2 (a * 2 ^ 20 / 1000000) in
  round_half_even_div (a * 2 ^ 72) (1000000 * 2 ^ s) * 2 ^ s.

(** [delta.total_seconds()] for a [timedelta] of [delta_us] microseconds. *)
Definition total_seconds (delta_us : Z) : Z :=
  if delta_us =? 0 then 0
  else if 0 <? delta_us then float64_of_micro_pos delta_us
  else - float64_of_micro_pos (- delta_us).

(** [x > n] for a float [x] and an integer [n]. *)
Definition float_gt_int (x : Z) (n : Z) : bool := x >? n * 2 ^ 72.

(** [d.replace(microsecond=0)] and [d.replace(tzinfo=None)] *)
Definition replace_microsecond_0 (d : datetime) : datetime :=
  mkDatetime (wall_us d - wall_us d mod 1000000) (utcoffset d).

Definition replace_tzinfo_None (d : datetime) : datetime :=
  mkDatetime (wall_us d) None.

(** ** Self monitoring, events and the world *)

Record SelfMonitoring : Type := mkSelfMonitoring {
  parsing_errors : Z;
  too_old_records : Z;
  too_long_content_size : list Z;
  processing_time : Z
}.

(** [func.EventHubEvent]: an optional enqueue time and a body of bytes. *)
Record EventHubEvent : Type := mkEvent {
  enqueued_time : option datetime;
  get_body : list Byte.byte
}.

(** Calls that leave the pipeline and are observable from outside. *)
Inductive Call : Type :=
| CallDecodeBody (body : list Byte.byte)
| CallSendLogs (url key : string) (payload : list (gmap string pyval))
| CallLogSelfMonitoringData (snapshot : SelfMonitoring)
| CallPushTimeSeriesToAzure (snapshot : SelfMonitoring).

Record World : Type := mkWorld {
  self_monitoring : SelfMonitoring;
  dt_payload : list (gmap string pyval);
  clock_reads : nat;
  calls : list Call
}.

Definition set_self_monitoring (f : SelfMonitoring -> SelfMonitoring) (w : World) : World :=
  mkWorld (f (self_monitoring w)) (dt_payload w) (clock_reads w) (calls w).

Definition incr_parsing_errors (sm : SelfMonitoring) : SelfMonitoring :=
  mkSelfMonitoring (parsing_errors sm + 1) (too_old_records sm)
                   (too_long_content_size sm) (processing_time sm).

Definition incr_too_old_records (sm : SelfMonitoring) : SelfMonitoring :=
  mkSelfMonitoring (parsing_errors sm) (too_old_records sm + 1)
                   (too_long_content_size sm) (processing_time sm).

Definition append_too_long_content_size (n : Z) (sm : SelfMonitoring) : SelfMonitoring :=
  mkSelfMonitoring (parsing_errors sm) (too_old_records sm)
                   (too_long_content_size sm ++ [n]) (processing_time sm).

Definition set_processing_time (t : Z) (sm : SelfMonitoring) : SelfMonitoring :=
  mkSelfMonitoring (parsing_errors sm) (too_old_records sm)
                   (too_long_content_size sm) t.

(** ** The monad of the pipeline: state that survives an exception *)

Definition M (A : Type) : Type := World -> result A * World.

Definition ret {A} (a : A) : M A := fun w => (Ok a, w).

Definition raise {A} (e : exn) : M A := fun w => (Raise e, w).

Definition bind {A B} (m : M A) (k : A -> M B) : M B :=
  fun w =>
    match m w with
    | (Ok a, w') => k a w'
    | (Raise e, w') => (Raise e, w')
    end.

(** [try: m  except Exception as e: handler e] *)
Definition try_except {A} (m : M A) (handler : exn -> M A) : M A :=
  fun w =>
    match m w with
    | (Ok a, w') => (Ok a, w')
    | (Raise e, w') => handler e w'
    end.

(** [try: m  finally: final] *)
Definition try_finally {A} (m : M A) (final : M unit) : M A :=
  fun w =>
    match m w with
    | (r, w') =>
        match final w' with
        | (Ok _, w'') => (r, w'')
        | (Raise e, w'') => (Raise e, w'')
        end
    end.

Definition lift {A} (r : result A) : M A := fun w => (r, w).

Definition modify (f : World -> World) : M unit := fun w => (Ok tt, f w).

Definition gets {A} (f : World -> A) : M A := fun w => (Ok (f w), w).

Notation "x <- m ;; k" := (bind m (fun x => k))
  (at level 100, m at next level, right associativity).
Notation "m ;;; k" := (bind m (fun _ => k))
  (at level 100, right associativity).

(** One more reading of a clock. *)
Definition tick_clock (w : World) : World :=
  mkWorld (self_monitoring w) (dt_payload w) (S (clock_reads w)) (calls w).

Definition record_call (c : Call) : M unit :=
  modify (fun w => mkWorld (self_monitoring w) (dt_payload w) (clock_reads w) (calls w ++ [c])).

(** ** Configuration and collaborators

    [Config] holds the module-level constants read from the environment when
    the module is loaded; [get_int_environment_value] may return any
    integer. *)

Class Config : Type := {
  record_age_limit : Z;
  attribute_value_length_limit : Z;
  content_length_limit : Z;
  cloud_log_forwarder : string
}.

Definition DYNATRACE_URL : string := "DYNATRACE_URL".
Definition DYNATRACE_ACCESS_KEY : string := "DYNATRACE_ACCESS_KEY".
Definition DYNATRACE_LOG_INGEST_CONTENT_MARK_TRIMMED : string := "[TRUNCATED]".

(** [Runtime] gathers what the module imports: the standard library and
    [dateutil] functions it calls, and the collaborators of the package
    ([mapping], [filtering], [metadata_engine], [monitored_entity_id],
    [dynatrace_client]). A collaborator that updates [parsed_record] in
    place returns the updated dictionary, or raises. A raw record typed
    [Dict] in the source is the list of its entries. The clocks are read
    through the number of earlier readings: [utc_now n] is what the [n]-th
    call of [datetime.now(timezone.utc)] returns, in microseconds. *)

Class Runtime : Type := {
  parser_parse : string -> result datetime;
  isoformat : datetime -> string;
  utc_now : nat -> Z;
  perf_counter : nat -> Z;
  bytes_decode_utf8 : list Byte.byte -> result string;
  json_loads : string -> result pyval;
  json_dumps : pyval -> result string;
  py_str : pyval -> string;
  str_lower : string -> string;
  azure_properties_names : list string;
  extract_severity : list (string * pyval) -> gmap string pyval
                     -> result (gmap string pyval);
  extract_resource_id_attributes : gmap string pyval -> pyval -> result (gmap string pyval);
  should_filter_out_record : gmap string pyval -> result bool;
  metadata_engine_apply : list (string * pyval) -> gmap string pyval
                          -> result (gmap string pyval);
  infer_monitored_entity_id : string -> gmap string pyval -> result (gmap string pyval);
  send_logs : string -> string -> list (gmap string pyval) -> SelfMonitoring
              -> result unit * SelfMonitoring
}.

Section Pipeline.

Context {cfg : Config} {rt : Runtime}.

(** [datetime.now(timezone.utc)] *)
Definition datetime_now_utc : M datetime :=
  fun w =>
    (Ok (mkDatetime (utc_now (clock_reads w)) (Some 0)), tick_clock w).

(** [time.perf_counter()] *)
Definition time_perf_counter : M Z :=
  fun w =>
    (Ok (perf_counter (clock_reads w)), tick_clock w).

(** [parser.parse(timestamp)]: [dateutil] accepts a string and raises
    [TypeError] on any other object. *)
Definition parser_parse_object (timestamp : pyval) : result datetime :=
  match timestamp with
  | PStr s => parser_parse s
  | _ => Raise TypeError
  end.

(** *** [is_too_old] *)

Definition is_too_old (timestamp : pyval) (log_part : string) : M bool :=
  if truthy timestamp then
    try_except
      (date <- lift (parser_parse_object timestamp) ;;
       now <- datetime_now_utc ;;
       delta <- lift (datetime_sub now date) ;;
       if float_gt_int (total_seconds delta) (record_age_limit - 60) then
         modify (set_self_monitoring incr_too_old_records) ;;;
         ret true
       else ret false)
      (fun _ =>
         modify (set_self_monitoring incr_parsing_errors) ;;;
         ret false)
  else ret false.

(** *** [deserialize_properties] *)

Definition first_properties_name (entries : list (string * pyval)) : string :=
  match List.find (fun properties => dict_has entries properties) azure_properties_names with
  | Some properties => properties
  | None => ""
  end.

(** The record is updated in place; the result is the record after the
    call. An object without [keys] and [get] raises [AttributeError]. *)
Definition deserialize_properties (record : pyval) : result (list (string * pyval)) :=
  match as_dict record with
  | Raise e => Raise e
  | Ok entries =>
      let properties_name := first_properties_name entries in
      let properties :=
        match dict_get entries properties_name with
        | Some v => v
        | None => PDict []
        end in
      match properties with
      | PStr s =>
          if truthy properties then
            match json_loads s with
            | Ok decoded => Ok (dict_set entries "properties" decoded)
            | Raise e => Raise e
            end
          else Ok entries
      | _ => Ok entries
      end
  end.

(** *** [extract_cloud_log_forwarder] *)

Definition extract_cloud_log_forwarder (parsed_record : gmap string pyval)
  : gmap string pyval :=
  if truthy (PStr cloud_log_forwarder)
  then <["cloud.log_forwarder" := PStr cloud_log_forwarder]> parsed_record
  else parsed_record.

(** *** [parse_record]: the sanitization step (the attribute loop and the
    content block) *)

Definition exempt_attribute (attribute_key : string) : bool :=
  bool_decide (attribute_key ∈ ["content"; "severity"; "timestamp"]).

Definition string_attribute_value (attribute_value : pyval) : string :=
  match attribute_value with
  | PStr s => s
  | _ => py_str attribute_value
  end.

(** One turn of [for attribute_key, attribute_value in parsed_record.items()]. *)
Definition sanitize_attribute (attribute_key : string) (attribute_value : pyval)
    (parsed_record : gmap string pyval) : gmap string pyval :=
  if negb (exempt_attribute attribute_key) && truthy attribute_value then
    <[attribute_key :=
        PStr (py_slice_to (string_attribute_value attribute_value)
                          attribute_value_length_limit)]> parsed_record
  else parsed_record.

(** The loop visits the items of the dictionary it updates; it only
    overwrites values of keys that are present. *)
Definition sanitize_attributes (parsed_record : gmap string pyval) : gmap string pyval :=
  map_fold sanitize_attribute parsed_record parsed_record.

Definition sanitize_content (parsed_record : gmap string pyval) : M (gmap string pyval) :=
  match parsed_record !! "content" with
  | None => ret parsed_record
  | Some content =>
      if truthy content then
        serialized <- lift (match content with
                            | PStr s => Ok s
                            | _ => json_dumps content
                            end) ;;
        let parsed_record :=
          if is_str content then parsed_record
          else <["content" := PStr serialized]> parsed_record in
        if len serialized >? content_length_limit then
          modify (set_self_monitoring (append_too_long_content_size (len serialized))) ;;;
          let trimmed_len :=
            content_length_limit - len DYNATRACE_LOG_INGEST_CONTENT_MARK_TRIMMED in
          ret (<["content" :=
                   PStr (String.append (py_slice_to serialized trimmed_len)
                                        DYNATRACE_LOG_INGEST_CONTENT_MARK_TRIMMED)]> parsed_record)
        else ret parsed_record
      else ret parsed_record
  end.

Definition sanitize (parsed_record : gmap string pyval) : M (gmap string pyval) :=
  sanitize_content (sanitize_attributes parsed_record).

(** *** [parse_record] *)

Definition extract_resource_id (record : list (string * pyval))
    (parsed_record : gmap string pyval) : result (gmap string pyval) :=
  if dict_has record "resourceId" then
    let resource_id := default PNone (dict_get record "resourceId") in
    extract_resource_id_attributes parsed_record resource_id
  else if dict_has record "_ResourceId" then
    let resource_id := default PNone (dict_get record "_ResourceId") in
    extract_resource_id_attributes parsed_record resource_id
  else Ok parsed_record.

(** [record.get("category", "").lower()] *)
Definition category_lower (record : list (string * pyval)) : result string :=
  match dict_get record "category" with
  | None => Ok (str_lower "")
  | Some (PStr s) => Ok (str_lower s)
  | Some _ => Raise AttributeError
  end.

(** The result is [None] when the drop filter rejects the record. *)
Definition parse_record (record : list (string * pyval))
  : M (option (gmap string pyval)) :=
  let parsed_record : gmap string pyval := {[ "cloud.provider" := PStr "Azure" ]} in
  parsed_record <- lift (extract_severity record parsed_record) ;;
  let parsed_record := extract_cloud_log_forwarder parsed_record in
  parsed_record <- lift (extract_resource_id record parsed_record) ;;
  filtered_out <- lift (should_filter_out_record parsed_record) ;;
  if filtered_out then ret None
  else
    parsed_record <- lift (metadata_engine_apply record parsed_record) ;;
    category <- lift (category_lower record) ;;
    parsed_record <- lift (infer_monitored_entity_id category parsed_record) ;;
    parsed_record <- sanitize parsed_record ;;
    ret (Some parsed_record).

(** *** [process_record] *)

Definition append_dt_payload (parsed_record : gmap string pyval) (w : World) : World :=
  mkWorld (self_monitoring w) (dt_payload w ++ [parsed_record]) (clock_reads w) (calls w).

(** [if parsed_record:] holds for a dictionary that is not empty. *)
Definition process_record (record : pyval) : M unit :=
  record <- lift (deserialize_properties record) ;;
  parsed_record <- parse_record record ;;
  match parsed_record with
  | None => ret tt
  | Some parsed_record =>
      if bool_decide (parsed_record = ∅) then ret tt
      else
        let timestamp := default PNone (parsed_record !! "timestamp") in
        too_old <- is_too_old timestamp "record" ;;
        if too_old then ret tt
        else modify (append_dt_payload parsed_record)
  end.

(** *** [process_logs] *)

(** The body of [for record in records]: the call of [process_record]
    inside its [try], with the two [except] clauses. *)
Definition process_record_guarded (record : pyval) : M unit :=
  try_except (process_record record)
    (fun e =>
       match e with
       | JSONDecodeError => modify (set_self_monitoring incr_parsing_errors)
       | _ => modify (set_self_monitoring incr_parsing_errors)
       end).

Fixpoint for_each {A} (body : A -> M unit) (items : list A) : M unit :=
  match items with
  | [] => ret tt
  | item :: rest => body item ;;; for_each body rest
  end.

Definition event_timestamp (event : EventHubEvent) : pyval :=
  match enqueued_time event with
  | Some t =>
      PStr (String.append
              (isoformat (replace_tzinfo_None (replace_microsecond_0 t))) "Z")
  | None => PNone
  end.

(** The body of [for event in events]. *)
Definition process_event (event : EventHubEvent) : M unit :=
  let timestamp := event_timestamp event in
  too_old <- is_too_old timestamp "event" ;;
  if too_old then ret tt
  else
    let event_body := get_body event in
    record_call (CallDecodeBody event_body) ;;;
    text <- lift (bytes_decode_utf8 event_body) ;;
    event_json <- lift (json_loads text) ;;
    entries <- lift (as_dict event_json) ;;
    let records := default (PList []) (dict_get entries "records") in
    items <- lift (py_iter records) ;;
    for_each process_record_guarded items.

Definition environ_item (environ : gmap string string) (key : string) : result string :=
  match environ !! key with
  | Some value => Ok value
  | None => Raise KeyError
  end.

Definition call_send_logs (url key : string) (payload : list (gmap string pyval)) : M unit :=
  fun w =>
    let '(r, sm) := send_logs url key payload (self_monitoring w) in
    (r, mkWorld sm (dt_payload w) (clock_reads w)
                (calls w ++ [CallSendLogs url key payload])).

Definition reset_dt_payload (w : World) : World :=
  mkWorld (self_monitoring w) [] (clock_reads w) (calls w).

(** The [try] block of [process_logs]. *)
Definition process_logs_try (environ : gmap string string) (events : list EventHubEvent)
  : M unit :=
  if negb (bool_decide (is_Some (environ !! DYNATRACE_URL)))
     || negb (bool_decide (is_Some (environ !! DYNATRACE_ACCESS_KEY)))
  then raise (ConfigurationError
                "Please set DYNATRACE_URL and DYNATRACE_ACCESS_KEY in application settings")
  else
    modify reset_dt_payload ;;;
    start_time <- time_perf_counter ;;
    for_each process_event events ;;;
    end_time <- time_perf_counter ;;
    modify (set_self_monitoring (set_processing_time (end_time - start_time))) ;;;
    payload <- gets dt_payload ;;
    match payload with
    | [] => ret tt
    | _ :: _ =>
        url <- lift (environ_item environ DYNATRACE_URL) ;;
        key <- lift (environ_item environ DYNATRACE_ACCESS_KEY) ;;
        call_send_logs url key payload
    end.

(** The [finally] block of [process_logs]. *)
Definition process_logs_finally (environ : gmap string string) : M unit :=
  let self_monitoring_enabled :=
    bool_decide (default "False" (environ !! "SELF_MONITORING_ENABLED") ∈ ["True"; "true"]) in
  sm <- gets self_monitoring ;;
  record_call (CallLogSelfMonitoringData sm) ;;;
  if self_monitoring_enabled then
    sm <- gets self_monitoring ;;
    record_call (CallPushTimeSeriesToAzure sm)
  else ret tt.

Definition process_logs (environ : gmap string string) (events : list EventHubEvent)
  : M unit :=
  try_finally
    (try_except (process_logs_try environ events) (fun e => raise e))
    (process_logs_finally environ).

End Pipeline.

(** ** Vocabulary of the properties *)

Section Vocabulary.

Context {cfg : Config} {rt : Runtime}.

(** The age the guard computes for an aware [date] when the clock has been
    read [clock_reads w] times, in microseconds. *)
Definition age_at (w : World) (date : datetime) (offset : Z) : Z :=
  (utc_now (clock_reads w) - 0) - (wall_us date - offset).

(** What the attribute loop leaves under a key that held [attribute_value]. *)
Definition sanitized_value (attribute_key : string) (attribute_value : pyval) : pyval :=
  if negb (exempt_attribute attribute_key) && truthy attribute_value then
    PStr (py_slice_to (string_attribute_value attribute_value)
                      attribute_value_length_limit)
  else attribute_value.

(** A computation commutes with the count of one more parsing error when
    counting before it or after it gives the same result and world. *)
Definition commutes_with_error_count {A} (m : M A) : Prop :=
  forall w,
    m (set_self_monitoring incr_parsing_errors w)
    = (fst (m w), set_self_monitoring incr_parsing_errors (snd (m w))).

(** Numbers of calls to [log_self_monitoring_data] and to
    [push_time_series_to_azure] in a list of calls. *)
Fixpoint count_log_calls (cs : list Call) : nat :=
  match cs with
  | [] => O
  | CallLogSelfMonitoringData _ :: rest => S (count_log_calls rest)
  | _ :: rest => count_log_calls rest
  end.

Fixpoint count_push_calls (cs : list Call) : nat :=
  match cs with
  | [] => O
  | CallPushTimeSeriesToAzure _ :: rest => S (count_push_calls rest)
  | _ :: rest => count_push_calls rest
  end.

Definition same_flushes (w w' : World) : Prop :=
  count_log_calls (calls w') = count_log_calls (calls w)
  /\ count_push_calls (calls w') = count_push_calls (calls w).

(** A computation is quiet when no run of it, returning or raising, calls
    the self-monitoring flush. *)
Definition quiet {A} (m : M A) : Prop :=
  forall w r w', m w = (r, w') -> same_flushes w w'.

(** [SELF_MONITORING_ENABLED] as the [finally] block reads it. *)
Definition self_monitoring_enabled (environ : gmap string string) : bool :=
  bool_decide (default "False" (environ !! "SELF_MONITORING_ENABLED") ∈ ["True"; "true"]).

(** The calls the [finally] block makes in a world. *)
Definition flush_calls (environ : gmap string string) (w : World) : list Call :=
  CallLogSelfMonitoringData (self_monitoring w)
  :: (if self_monitoring_enabled environ
      then [CallPushTimeSeriesToAzure (self_monitoring w)] else []).

(** The world after one more call to decode an event body. *)
Definition with_decode_call (body : list Byte.byte) (w : World) : World :=
  mkWorld (self_monitoring w) (dt_payload w) (clock_reads w)
          (calls w ++ [CallDecodeBody body]).

(** The world in which the loop over the events starts: the payload has
    been emptied and [perf_counter] read once. *)
Definition loop_start (w : World) : World := tick_clock (reset_dt_payload w).

Definition flushed (environ : gmap string string) (w : World) : World :=
  mkWorld (self_monitoring w) (dt_payload w) (clock_reads w)
          (calls w ++ flush_calls environ w).

(** A parsed record is within the limits when every value outside
    [content], [severity] and [timestamp] is false in a condition or a
    string of at most [attribute_value_length_limit] characters, and the
    content is false in a condition or a string of at most
    [content_length_limit] characters. *)
Definition within_limits (parsed_record : gmap string pyval) : Prop :=
  (forall key value,
      parsed_record !! key = Some value ->
      exempt_attribute key = false ->
      truthy value = false
      \/ exists s, value = PStr s /\ len s <= attribute_value_length_limit)
  /\ (forall value,
        parsed_record !! "content" = Some value ->
        truthy value = false
        \/ exists s, value = PStr s /\ len s <= content_length_limit).

(** What the loop over [n] records may do to the world: it appends at
    most [n] records satisfying [P] to the payload, counts at most [n]
    records as too old or in error, and makes no outside call. A record is
    appended, or counted as too old, never both; it is counted as too old,
    or in error, never both. *)
Definition batch_step (P : gmap string pyval -> Prop) (n : nat) (w w' : World) : Prop :=
  calls w' = calls w
  /\ processing_time (self_monitoring w') = processing_time (self_monitoring w)
  /\ (clock_reads w <= clock_reads w' <= clock_reads w + n)%nat
  /\ exists (out : list (gmap string pyval)) (sizes : list Z),
       dt_payload w' = dt_payload w ++ out
       /\ Forall P out
       /\ too_long_content_size (self_monitoring w')
          = too_long_content_size (self_monitoring w) ++ sizes
       /\ (length sizes <= n)%nat
       /\ 0 <= parsing_errors (self_monitoring w') - parsing_errors (self_monitoring w)
       /\ 0 <= too_old_records (self_monitoring w') - too_old_records (self_monitoring w)
       /\ Z.of_nat (length out)
          + (too_old_records (self_monitoring w') - too_old_records (self_monitoring w))
          <= Z.of_nat n
       /\ (parsing_errors (self_monitoring w') - parsing_errors (self_monitoring w))
          + (too_old_records (self_monitoring w') - too_old_records (self_monitoring w))
          <= Z.of_nat n.

(** The calls that decode the bodies of a list of events, in order. *)
Definition decode_calls (events : list EventHubEvent) : list Call :=
  map (fun event => CallDecodeBody (get_body event)) events.

(** What the loop over events may do to the world, whether it returns or
    raises: it appends records satisfying [P] to the payload, decodes some
    of the bodies of the events, in their order and once at most, makes no
    other outside call, and lets no counter decrease. *)
Definition events_step (P : gmap string pyval -> Prop) (events : list EventHubEvent)
    (w w' : World) : Prop :=
  (exists out, dt_payload w' = dt_payload w ++ out /\ Forall P out)
  /\ (exists extra, calls w' = calls w ++ extra
                    /\ sublist extra (decode_calls events))
  /\ parsing_errors (self_monitoring w) <= parsing_errors (self_monitoring w')
  /\ too_old_records (self_monitoring w) <= too_old_records (self_monitoring w')
  /\ (exists sizes, too_long_content_size (self_monitoring w')
                    = too_long_content_size (self_monitoring w) ++ sizes)
  /\ processing_time (self_monitoring w') = processing_time (self_monitoring w).

(** The world after the loop over the events has returned in [w] in an
    invocation started in [w_start]: [perf_counter] is read once more and
    the difference of the two readings is stored in [processing_time]. *)
Definition timed (w_start w : World) : World :=
  set_self_monitoring
    (set_processing_time
       (perf_counter (clock_reads w) - perf_counter (clock_reads w_start)))
    (tick_clock w).

(** The world after a call of [send_logs] that left [sm]. *)
Definition with_send_call (url key : string) (payload : list (gmap string pyval))
    (sm : SelfMonitoring) (w : World) : World :=
  mkWorld sm (dt_payload w) (clock_reads w) (calls w ++ [CallSendLogs url key payload]).

Definition is_send_call (c : Call) : bool :=
  match c with CallSendLogs _ _ _ => true | _ => false end.

(** A record that may be sent: not the empty dictionary, and within the
    limits. *)
Definition sendable (parsed_record : gmap string pyval) : Prop :=
  parsed_record <> ∅ /\ within_limits parsed_record.

(** What one raw record gives to the payload when it is met in the world
    [w]: its parsed record when its properties decode, [parse_record]
    returns a dictionary that is not empty, and the guard answers [False]
    for its timestamp; nothing otherwise. *)
Definition record_yield (record : pyval) (w : World) : list (gmap string pyval) :=
  match deserialize_properties record with
  | Raise _ => []
  | Ok entries =>
      match parse_record entries w with
      | (Ok (Some parsed_record), w1) =>
          if bool_decide (parsed_record = ∅) then []
          else
            match is_too_old (default PNone (parsed_record !! "timestamp")) "record" w1 with
            | (Ok false, _) => [parsed_record]
            | _ => []
            end
      | _ => []
      end
  end.

(** What a list of raw records gives to the payload, in the order of the
    list, each record being met in the world the loop has reached. *)
Fixpoint batch_yield (records : list pyval) (w : World) : list (gmap string pyval) :=
  match records with
  | [] => []
  | record :: rest =>
      record_yield record w
      ++ batch_yield rest (snd (process_record_guarded record w))
  end.

End Vocabulary.

(** ** A small concrete runtime

    A configuration and a runtime on which the pipeline can be evaluated:
    a [dateutil] that knows a few timestamps, a [json] that knows a few
    documents, and collaborators that copy fields of the raw record. *)

Module Demo.

Definition default_config : Config := {|
  record_age_limit := 3600 * 24;
  attribute_value_length_limit := 250;
  content_length_limit := 8192;
  cloud_log_forwarder := ""
|}.

(** Small limits, to see truncation on short strings. *)
Definition small_config : Config := {|
  record_age_limit := 3600 * 24;
  attribute_value_length_limit := 4;
  content_length_limit := 16;
  cloud_log_forwarder := "fwd"
|}.

(** Readings in microseconds since 1970-01-01T00:00:00Z. *)
Definition t_2024_01_01 : Z := 1704067200 * 1000000.
Definition t_2024_01_09_23h : Z := 1704841200 * 1000000.
Definition t_2024_01_10 : Z := 1704844800 * 1000000.

Definition t_1400_01_01 : Z := -17987443200 * 1000000.

(** Three aware timestamps and a naive one; like [dateutil], the parser
    rejects every other string, the empty one included. *)
Definition demo_parser_parse (s : string) : result datetime :=
  if String.eqb s "2024-01-01T00:00:00Z" then Ok (mkDatetime t_2024_01_01 (Some 0))
  else if String.eqb s "1399-12-31T23:59:59.999999Z"
  then Ok (mkDatetime (t_1400_01_01 - 1) (Some 0))
  else if String.eqb s "2024-01-09T23:00:00Z" then Ok (mkDatetime t_2024_01_09_23h (Some 0))
  else if String.eqb s "2024-01-01T00:00:00" then Ok (mkDatetime t_2024_01_01 None)
  else Raise ParserError.

Definition demo_isoformat (d : datetime) : string :=
  if Z.eqb (wall_us d) t_2024_01_01 then "2024-01-01T00:00:00"
  else if Z.eqb (wall_us d) t_2024_01_09_23h then "2024-01-09T23:00:00"
  else "1970-01-01T00:00:00".

Definition demo_bytes_decode_utf8 (body : list Byte.byte) : result string :=
  if forallb (fun b => N.ltb (Byte.to_N b) 128) body
  then Ok (string_of_list_byte body)
  else Raise UnicodeDecodeError.

Definition dq : string := String (ascii_of_nat 34) EmptyString.

(** The document [{"records": [{"content": "kept"}]}]. *)
Definition one_record_document : string :=
  String.concat "" ["{"; dq; "records"; dq; ": [{"; dq; "content"; dq; ": ";
                    dq; "kept"; dq; "}]}"].

(** The document
    [{"records": [{"content": "first"}, {"properties": "{"}, {"content": "third"}]}],
    whose second record has properties that do not decode. *)
Definition three_records_document : string :=
  String.concat "" ["{"; dq; "records"; dq; ": [{"; dq; "content"; dq; ": ";
                    dq; "first"; dq; "}, {"; dq; "properties"; dq; ": "; dq; "{"; dq;
                    "}, {"; dq; "content"; dq; ": "; dq; "third"; dq; "}]}"].

Definition demo_json_loads (text : string) : result pyval :=
  if String.eqb text one_record_document
  then Ok (PDict [("records", PList [PDict [("content", PStr "kept")]])])
  else if String.eqb text three_records_document
  then Ok (PDict [("records",
                   PList [PDict [("content", PStr "first")];
                          PDict [("properties", PStr "{")];
                          PDict [("content", PStr "third")]])])
  else if String.eqb text "{}" then Ok (PDict [])
  else if String.eqb text "[]" then Ok (PList [])
  else Raise JSONDecodeError.

Definition demo_json_dumps (v : pyval) : result string :=
  match v with
  | PNone => Ok "null"
  | PBool true => Ok "true"
  | PBool false => Ok "false"
  | PInt n => Ok (pretty n)
  | PList [] => Ok "[]"
  | PDict [] => Ok "{}"
  | _ => Raise TypeError
  end.

Definition demo_py_str (v : pyval) : string :=
  match v with
  | PNone => "None"
  | PBool true => "True"
  | PBool false => "False"
  | PInt n => pretty n
  | PStr s => s
  | PList _ => "[...]"
  | PDict _ => "{...}"
  end.

Definition ascii_lower (c : ascii) : ascii :=
  let n := nat_of_ascii c in
  if (Nat.leb 65 n && Nat.leb n 90)%bool then ascii_of_nat (n + 32) else c.

Fixpoint demo_str_lower (s : string) : string :=
  match s with
  | EmptyString => EmptyString
  | String c rest => String (ascii_lower c) (demo_str_lower rest)
  end.

Definition copy_field (record : list (string * pyval)) (source target : string)
    (parsed_record : gmap string pyval) : gmap string pyval :=
  match dict_get record source with
  | Some v => <[target := v]> parsed_record
  | None => parsed_record
  end.

Definition demo_extract_resource_id_attributes (parsed_record : gmap string pyval)
    (resource_id : pyval) : result (gmap string pyval) :=
  match resource_id with
  | PStr s => Ok (<["azure.resource.id" := PStr s]> parsed_record)
  | _ => Raise (CollaboratorError "extract_resource_id_attributes")
  end.

(** Drops the records of the resource ["/dropped"]. *)
Definition demo_should_filter_out_record (parsed_record : gmap string pyval) : result bool :=
  match parsed_record !! "azure.resource.id" with
  | Some (PStr s) => Ok (String.eqb s "/dropped")
  | _ => Ok false
  end.

Definition demo_metadata_engine_apply (record : list (string * pyval))
    (parsed_record : gmap string pyval)
  : result (gmap string pyval) :=
  Ok (copy_field record "operationName" "audit.action"
        (copy_field record "content" "content"
           (copy_field record "time" "timestamp" parsed_record))).

Definition demo_runtime : Runtime := {|
  parser_parse := demo_parser_parse;
  isoformat := demo_isoformat;
  utc_now := fun n => t_2024_01_10 + Z.of_nat n;
  perf_counter := fun n => Z.of_nat n;
  bytes_decode_utf8 := demo_bytes_decode_utf8;
  json_loads := demo_json_loads;
  json_dumps := demo_json_dumps;
  py_str := demo_py_str;
  str_lower := demo_str_lower;
  azure_properties_names := ["properties"; "Properties"];
  extract_severity := fun record parsed_record =>
    Ok (copy_field record "level" "severity" parsed_record);
  extract_resource_id_attributes := demo_extract_resource_id_attributes;
  should_filter_out_record := demo_should_filter_out_record;
  metadata_engine_apply := demo_metadata_engine_apply;
  infer_monitored_entity_id := fun category parsed_record => Ok parsed_record;
  send_logs := fun url key payload sm => (Ok tt, sm)
|}.

Definition fresh_self_monitoring : SelfMonitoring := mkSelfMonitoring 0 0 [] 0.

Definition fresh_world : World := mkWorld fresh_self_monitoring [] 0 [].

Definition environ : gmap string string :=
  {[ "DYNATRACE_URL" := "https://example.invalid";
     "DYNATRACE_ACCESS_KEY" := "token" ]}.

(** Raw records. *)
Definition recent_record : pyval :=
  PDict [("time", PStr "2024-01-09T23:00:00Z"); ("content", PStr "first")].
Definition other_recent_record : pyval :=
  PDict [("time", PStr "2024-01-09T23:00:00Z"); ("content", PStr "third")].
Definition broken_properties_record : pyval :=
  PDict [("properties", PStr "{"); ("content", PStr "second")].
Definition dropped_record : pyval :=
  PDict [("resourceId", PStr "/dropped");
         ("content", PStr "a content well over sixteen characters")].

(** Events. *)
Definition recent_event (body : string) : EventHubEvent :=
  mkEvent (Some (mkDatetime t_2024_01_09_23h (Some 0))) (list_byte_of_string body).
Definition stale_event (body : string) : EventHubEvent :=
  mkEvent (Some (mkDatetime (t_2024_01_01 + 123456) (Some 0))) (list_byte_of_string body).

(** A parsed record with an attribute and a content above the small limits. *)
Definition long_parsed_record : gmap string pyval :=
  {[ "cloud.provider" := PStr "Azure";
     "retries" := PInt 123456;
     "timestamp" := PStr "2024-01-09T23:00:00Z";
     "content" := PStr "a content well over sixteen characters" ]}.

Definition long_sanitized : gmap string pyval :=
  match fst (@sanitize small_config demo_runtime long_parsed_record fresh_world) with
  | Ok sanitized => sanitized
  | Raise _ => ∅
  end.

Definition long_sanitized_world : World :=
  snd (@sanitize small_config demo_runtime long_parsed_record fresh_world).

(** The world after the loop over [[recent_record]] from [fresh_world]. *)
Definition after_recent_record : World :=
  snd (for_each (@process_record_guarded default_config demo_runtime)
         [recent_record] fresh_world).

(** The worlds of a batch whose second event has the body [{]. *)
Definition after_first_event : World :=
  snd (for_each (@process_event default_config demo_runtime)
         [recent_event one_record_document] (loop_start fresh_world)).

Definition after_second_guard : World :=
  snd (@is_too_old default_config demo_runtime
         (@event_timestamp demo_runtime (recent_event "{")) "event" after_first_event).


(** A negative limit on attributes. *)
Definition negative_config : Config := {|
  record_age_limit := 3600 * 24;
  attribute_value_length_limit := -1;
  content_length_limit := 8192;
  cloud_log_forwarder := ""
|}.

(** A content limit below the length of the marker. *)
Definition tiny_config : Config := {|
  record_age_limit := 3600 * 24;
  attribute_value_length_limit := 250;
  content_length_limit := 5;
  cloud_log_forwarder := ""
|}.

(** Parsed records with a content of ten letters, and with a number as
    content. *)
Definition letters_record : gmap string pyval := {[ "content" := PStr "abcdefghij" ]}.
Definition number_record : gmap string pyval := {[ "content" := PInt 42 ]}.

(** The world after the loop over one stale event. *)
Definition after_stale_event : World :=
  snd (for_each (@process_event default_config demo_runtime)
         [stale_event "{"] (loop_start fresh_world)).

(** Raw records without a timestamp, and with a timestamp of 2024-01-01. *)
Definition untimed_record : list (string * pyval) := [("content", PStr "first")].
Definition old_record : list (string * pyval) :=
  [("time", PStr "2024-01-01T00:00:00Z"); ("content", PStr "old")].

(** The record [letters_record] sanitized once and twice under
    [tiny_config], and the worlds of the two passes. *)
Definition letters_once : gmap string pyval :=
  match fst (@sanitize tiny_config demo_runtime letters_record fresh_world) with
  | Ok sanitized => sanitized
  | Raise _ => ∅
  end.
Definition letters_once_world : World :=
  snd (@sanitize tiny_config demo_runtime letters_record fresh_world).
Definition letters_twice : gmap string pyval :=
  match fst (@sanitize tiny_config demo_runtime letters_once letters_once_world) with
  | Ok sanitized => sanitized
  | Raise _ => ∅
  end.
Definition letters_twice_world : World :=
  snd (@sanitize tiny_config demo_runtime letters_once letters_once_world).

Definition parsed_of (record : list (string * pyval)) : gmap string pyval :=
  match fst (@parse_record default_config demo_runtime record fresh_world) with
  | Ok (Some parsed_record) => parsed_record
  | _ => ∅
  end.

End Demo.

(** * Properties of the pipeline *)

Section Properties.

Context {cfg : Config} {rt : Runtime}.

Ltac run_monad_in H :=
  unfold bind, try_except, lift, ret, raise, modify, gets, record_call,
         datetime_now_utc, time_perf_counter in H; simpl in H.

Ltac run_monad :=
  unfold bind, try_except, lift, ret, raise, modify, gets, record_call,
         datetime_now_utc, time_perf_counter; simpl.

(** ** The float [total_seconds()] *)

Lemma round_half_even_div_cases (n d : Z) :
  0 < d ->
  (round_half_even_div n d = n / d /\ 2 * (n mod d) <= d)
  \/ (round_half_even_div n d = n / d + 1 /\ d <= 2 * (n mod d)).
Proof.
  intros Hd. unfold round_half_even_div.
  destruct (2 * (n mod d) <? d) eqn:H1.
  - left. apply Z.ltb_lt in H1. split; [reflexivity | lia].
  - apply Z.ltb_ge in H1. destruct (d <? 2 * (n mod d)) eqn:H2.
    + right. split; [reflexivity | lia].
    + apply Z.ltb_ge in H2. destruct (Z.even (n / d)).
      * left. split; [reflexivity | lia].
      * right. split; [reflexivity | lia].
Qed.


Lemma round_half_even_div_exact (k d : Z) :
  0 < d -> round_half_even_div (k * d) d = k.
Proof.
  intros Hd. unfold round_half_even_div.
  rewrite Z.div_mul by lia. rewrite Z.mod_mul by lia.
  replace (2 * 0 <? d) with true by (symmetry; apply Z.ltb_lt; lia). reflexivity.
Qed.

Lemma round_half_even_div_mono (n1 n2 d : Z) :
  0 < d -> n1 <= n2 ->
  round_half_even_div n1 d <= round_half_even_div n2 d.
Proof.
  intros Hd Hn.
  pose proof (Z.div_le_mono n1 n2 d Hd Hn) as Hq.
  pose proof (Z.div_mod n1 d ltac:(lia)) as Hdm1.
  pose proof (Z.div_mod n2 d ltac:(lia)) as Hdm2.
  pose proof (Z.mod_pos_bound n1 d Hd) as Hr1.
  pose proof (Z.mod_pos_bound n2 d Hd) as Hr2.
  destruct (Z.eq_dec (n1 / d) (n2 / d)) as [Heq | Hne].
  - assert (Hr : n1 mod d <= n2 mod d) by nia.
    unfold round_half_even_div. rewrite <- Heq.
    destruct (2 * (n1 mod d) <? d) eqn:H1.
    + destruct (2 * (n2 mod d) <? d); [lia |].
      destruct (d <? 2 * (n2 mod d)); [lia |].
      destruct (Z.even (n1 / d)); lia.
    + apply Z.ltb_ge in H1.
      replace (2 * (n2 mod d) <? d) with false by (symmetry; apply Z.ltb_ge; lia).
      destruct (d <? 2 * (n1 mod d)) eqn:H2.
      * apply Z.ltb_lt in H2.
        replace (d <? 2 * (n2 mod d)) with true by (symmetry; apply Z.ltb_lt; lia). lia.
      * destruct (d <? 2 * (n2 mod d)); [destruct (Z.even (n1 / d)); lia | lia].
  - destruct (round_half_even_div_cases n1 d Hd) as [[-> _] | [-> _]];
      destruct (round_half_even_div_cases n2 d Hd) as [[-> _] | [-> _]]; lia.
Qed.

(** The binade of a positive quotient: [s] is such that
    [2^(s-20) <= a / 10^6 < 2^(s-19)]. *)
Lemma binade_bounds (a : Z) :
  0 < a ->
  let s := Z.log2 (a * 2 ^ 20 / 1000000) in
  0 <= s /\ 1000000 * 2 ^ s <= a * 2 ^ 20 < 1000000 * 2 ^ (s + 1).
Proof.
  intros Ha s.
  assert (Hy : 1 <= a * 2 ^ 20 / 1000000).
  { apply Z.div_le_lower_bound; lia. }
  pose proof (Z.log2_nonneg (a * 2 ^ 20 / 1000000)) as Hs.
  destruct (Z.log2_spec (a * 2 ^ 20 / 1000000) ltac:(lia)) as [Hlo Hhi].
  fold s in Hs, Hlo, Hhi.
  replace (Z.succ s) with (s + 1) in Hhi by lia.
  pose proof (Z.div_mod (a * 2 ^ 20) 1000000 ltac:(lia)) as Hdm.
  pose proof (Z.mod_pos_bound (a * 2 ^ 20) 1000000 ltac:(lia)) as Hr.
  split; [exact Hs |]. split; nia.
Qed.

Lemma binade_mono (a1 a2 : Z) :
  0 < a1 -> a1 <= a2 ->
  Z.log2 (a1 * 2 ^ 20 / 1000000) <= Z.log2 (a2 * 2 ^ 20 / 1000000).
Proof.
  intros H1 H2. apply Z.log2_le_mono. apply Z.div_le_mono; lia.
Qed.

Lemma float64_of_micro_pos_bounds (a : Z) :
  0 < a ->
  let s := Z.log2 (a * 2 ^ 20 / 1000000) in
  2 ^ 52 * 2 ^ s <= float64_of_micro_pos a <= 2 ^ 53 * 2 ^ s.
Proof.
  intros Ha s. destruct (binade_bounds a Ha) as (Hs & Hlo & Hhi). fold s in Hs, Hlo, Hhi.
  unfold float64_of_micro_pos. fold s.
  assert (Hp : 0 < 2 ^ s) by (apply Z.pow_pos_nonneg; lia).
  assert (Hd : 0 < 1000000 * 2 ^ s) by lia.
  replace (2 ^ (s + 1)) with (2 * 2 ^ s) in Hhi by (rewrite Z.pow_add_r by lia; lia).
  assert (H72 : 2 ^ 72 = 2 ^ 52 * 2 ^ 20) by reflexivity.
  pose proof (round_half_even_div_mono (2 ^ 52 * (1000000 * 2 ^ s)) (a * 2 ^ 72)
                (1000000 * 2 ^ s) Hd ltac:(nia)) as Hm1.
  pose proof (round_half_even_div_mono (a * 2 ^ 72) (2 ^ 53 * (1000000 * 2 ^ s))
                (1000000 * 2 ^ s) Hd ltac:(nia)) as Hm2.
  rewrite round_half_even_div_exact in Hm1, Hm2 by exact Hd.
  split; nia.
Qed.

Lemma float64_of_micro_pos_positive (a : Z) : 0 < a -> 0 < float64_of_micro_pos a.
Proof.
  intros Ha. pose proof (float64_of_micro_pos_bounds a Ha) as [Hlo _].
  destruct (binade_bounds a Ha) as (Hs & _).
  cbv zeta in Hlo, Hs.
  assert (Hp : 0 < 2 ^ Z.log2 (a * 2 ^ 20 / 1000000)) by (apply Z.pow_pos_nonneg; lia).
  assert (H52 : 0 < 2 ^ 52) by reflexivity.
  pose proof (Z.mul_pos_pos _ _ H52 Hp). lia.
Qed.

Lemma float64_of_micro_pos_mono (a1 a2 : Z) :
  0 < a1 -> a1 <= a2 ->
  float64_of_micro_pos a1 <= float64_of_micro_pos a2.
Proof.
  intros H1 H2.
  pose proof (binade_mono a1 a2 H1 H2) as Hs.
  destruct (binade_bounds a1 H1) as (Hs1 & _).
  destruct (Z.eq_dec (Z.log2 (a1 * 2 ^ 20 / 1000000)) (Z.log2 (a2 * 2 ^ 20 / 1000000)))
    as [Heq | Hne].
  - unfold float64_of_micro_pos. rewrite <- Heq.
    assert (Hp : 0 < 2 ^ Z.log2 (a1 * 2 ^ 20 / 1000000)) by (apply Z.pow_pos_nonneg; lia).
    apply Z.mul_le_mono_nonneg_r; [lia |].
    apply round_half_even_div_mono; lia.
  - pose proof (float64_of_micro_pos_bounds a1 H1) as [_ Hhi].
    pose proof (float64_of_micro_pos_bounds a2 ltac:(lia)) as [Hlo _].
    cbv zeta in Hhi, Hlo.
    set (s1 := Z.log2 (a1 * 2 ^ 20 / 1000000)) in *.
    set (s2 := Z.log2 (a2 * 2 ^ 20 / 1000000)) in *.
    assert (Hpow : 2 * 2 ^ s1 <= 2 ^ s2).
    { replace (2 * 2 ^ s1) with (2 ^ (s1 + 1)) by (rewrite Z.pow_add_r by lia; lia).
      apply Z.pow_le_mono_r; lia. }
    change (2 ^ 53) with (2 ^ 52 * 2) in Hhi. nia.
Qed.

Lemma total_seconds_mono (m1 m2 : Z) :
  m1 <= m2 -> total_seconds m1 <= total_seconds m2.
Proof.
  intros H. unfold total_seconds.
  destruct (Z.eqb_spec m1 0) as [-> | H1]; destruct (Z.eqb_spec m2 0) as [-> | H2];
    try lia.
  - destruct (Z.ltb_spec 0 m2); [| lia].
    pose proof (float64_of_micro_pos_positive m2 ltac:(lia)). lia.
  - destruct (Z.ltb_spec 0 m1); [lia |].
    pose proof (float64_of_micro_pos_positive (- m1) ltac:(lia)). lia.
  - destruct (Z.ltb_spec 0 m1); destruct (Z.ltb_spec 0 m2); try lia.
    + apply float64_of_micro_pos_mono; lia.
    + pose proof (float64_of_micro_pos_positive (- m1) ltac:(lia)).
      pose proof (float64_of_micro_pos_positive m2 ltac:(lia)). lia.
    + pose proof (float64_of_micro_pos_mono (- m2) (- m1) ltac:(lia) ltac:(lia)). lia.
Qed.






(** ** The age guard *)

Lemma truthy_PStr (s : string) : s <> "" -> truthy (PStr s) = true.
Proof.
  intros Hs. simpl. destruct (String.eqb_spec s ""); [contradiction | reflexivity].
Qed.

Lemma is_too_old_falsy (timestamp : pyval) (log_part : string) (w : World) :
  truthy timestamp = false -> is_too_old timestamp log_part w = (Ok false, w).
Proof. intros H. unfold is_too_old. rewrite H. reflexivity. Qed.

Lemma is_too_old_raising (timestamp : pyval) (e : exn) (log_part : string) (w : World) :
  truthy timestamp = true ->
  parser_parse_object timestamp = Raise e ->
  is_too_old timestamp log_part w
  = (Ok false, set_self_monitoring incr_parsing_errors w).
Proof.
  intros Ht Hp. unfold is_too_old. rewrite Ht. run_monad. rewrite Hp. reflexivity.
Qed.

Lemma is_too_old_naive (timestamp : pyval) (date : datetime) (log_part : string) (w : World) :
  truthy timestamp = true ->
  parser_parse_object timestamp = Ok date ->
  utcoffset date = None ->
  is_too_old timestamp log_part w
  = (Ok false, set_self_monitoring incr_parsing_errors (tick_clock w)).
Proof.
  intros Ht Hp Hn. unfold is_too_old. rewrite Ht. run_monad. rewrite Hp.
  unfold datetime_sub. simpl. rewrite Hn. reflexivity.
Qed.

Lemma is_too_old_aware (timestamp : pyval) (date : datetime) (offset : Z)
    (log_part : string) (w : World) :
  truthy timestamp = true ->
  parser_parse_object timestamp = Ok date ->
  utcoffset date = Some offset ->
  is_too_old timestamp log_part w
  = if float_gt_int (total_seconds (age_at w date offset)) (record_age_limit - 60)
    then (Ok true, set_self_monitoring incr_too_old_records (tick_clock w))
    else (Ok false, tick_clock w).
Proof.
  intros Ht Hp Ha. unfold is_too_old. rewrite Ht. run_monad. rewrite Hp.
  unfold datetime_sub, age_at. simpl. rewrite Ha.
  destruct (float_gt_int _ _); reflexivity.
Qed.

(** The guard never raises, and the ways it can answer. *)
Lemma is_too_old_cases (timestamp : pyval) (log_part : string) (w : World) :
  is_too_old timestamp log_part w = (Ok false, w)
  \/ is_too_old timestamp log_part w
     = (Ok false, set_self_monitoring incr_parsing_errors w)
  \/ is_too_old timestamp log_part w
     = (Ok false, set_self_monitoring incr_parsing_errors (tick_clock w))
  \/ is_too_old timestamp log_part w = (Ok false, tick_clock w)
  \/ is_too_old timestamp log_part w
     = (Ok true, set_self_monitoring incr_too_old_records (tick_clock w)).
Proof.
  destruct (truthy timestamp) eqn:Ht.
  - destruct (parser_parse_object timestamp) as [date | e] eqn:Hp.
    + destruct (utcoffset date) as [offset |] eqn:Ho.
      * rewrite (is_too_old_aware _ _ _ _ _ Ht Hp Ho).
        destruct (float_gt_int _ _); auto.
      * rewrite (is_too_old_naive _ _ _ _ Ht Hp Ho). auto.
    + rewrite (is_too_old_raising _ _ _ _ Ht Hp). auto.
  - rewrite (is_too_old_falsy _ _ _ Ht). auto.
Qed.

Lemma is_too_old_true (timestamp : pyval) (log_part : string) (w w' : World) :
  is_too_old timestamp log_part w = (Ok true, w') ->
  w' = set_self_monitoring incr_too_old_records (tick_clock w).
Proof.
  intros H.
  destruct (is_too_old_cases timestamp log_part w) as [E | [E | [E | [E | E]]]];
    rewrite E in H; congruence.
Qed.


(** C4, as the code has it. A timestamp that is true in a condition (a
    string that is not empty, in particular) and that [parser.parse] rejects
    makes [is_too_old] return [False], add exactly one to [parsing_errors]
    and leave every other counter, the clock and the payload alone. *)
Theorem is_too_old_unparseable (s : string) (e : exn) (log_part : string) (w : World) :
  s <> "" ->
  parser_parse s = Raise e ->
  is_too_old (PStr s) log_part w
  = (Ok false, set_self_monitoring incr_parsing_errors w)
  /\ parsing_errors (self_monitoring (snd (is_too_old (PStr s) log_part w)))
     = parsing_errors (self_monitoring w) + 1
  /\ too_old_records (self_monitoring (snd (is_too_old (PStr s) log_part w)))
     = too_old_records (self_monitoring w).
Proof.
  intros Hs Hp.
  rewrite (is_too_old_raising (PStr s) e log_part w (truthy_PStr s Hs) Hp).
  repeat split.
Qed.

(** C10. A timestamp string that parses to a naive date (no offset) is
    handled as an unparseable one whatever its reading: the subtraction from
    the aware current time raises inside the [try], [parsing_errors] grows
    by one, [too_old_records] does not move and the answer is [False], the
    same answer and the same counters as for any rejected string. *)
Theorem is_too_old_naive_timestamp (s : string) (date : datetime) (log_part : string)
    (w : World) :
  s <> "" ->
  parser_parse s = Ok date ->
  utcoffset date = None ->
  is_too_old (PStr s) log_part w
  = (Ok false, set_self_monitoring incr_parsing_errors (tick_clock w))
  /\ parsing_errors (self_monitoring (snd (is_too_old (PStr s) log_part w)))
     = parsing_errors (self_monitoring w) + 1
  /\ too_old_records (self_monitoring (snd (is_too_old (PStr s) log_part w)))
     = too_old_records (self_monitoring w)
  /\ (forall (s' : string) (e : exn),
        s' <> "" -> parser_parse s' = Raise e ->
        fst (is_too_old (PStr s) log_part w) = fst (is_too_old (PStr s') log_part w)
        /\ self_monitoring (snd (is_too_old (PStr s) log_part w))
           = self_monitoring (snd (is_too_old (PStr s') log_part w))).
Proof.
  intros Hs Hp Hn.
  rewrite (is_too_old_naive (PStr s) date log_part w (truthy_PStr s Hs) Hp Hn).
  split; [reflexivity |]. split; [reflexivity |]. split; [reflexivity |].
  intros s' e Hs' Hp'.
  rewrite (is_too_old_raising (PStr s') e log_part w (truthy_PStr s' Hs') Hp').
  split; reflexivity.
Qed.

(** ** Slices of strings *)

Lemma substring_0_length (n : nat) (s : string) :
  String.length (String.substring 0 n s) = Nat.min n (String.length s).
Proof.
  revert n. induction s as [| c s IH]; intros [| n]; simpl; auto.
Qed.

Lemma substring_0_all (n : nat) (s : string) :
  (String.length s <= n)%nat -> String.substring 0 n s = s.
Proof.
  revert n. induction s as [| c s IH]; intros [| n] H; simpl in *; auto; try lia.
  f_equal. apply IH. lia.
Qed.

Lemma string_length_append (s t : string) :
  String.length (String.append s t) = (String.length s + String.length t)%nat.
Proof. induction s as [| c s IH]; simpl; auto. Qed.

Lemma len_append (s t : string) : len (String.append s t) = len s + len t.
Proof. unfold len. rewrite string_length_append. lia. Qed.

Lemma py_slice_to_nonneg (s : string) (n : Z) :
  0 <= n -> py_slice_to s n = String.substring 0 (Z.to_nat n) s.
Proof.
  intros Hn. unfold py_slice_to, len.
  replace (n <? 0) with false by (symmetry; apply Z.ltb_ge; lia).
  destruct (Z_le_gt_dec n (Z.of_nat (String.length s))).
  - rewrite Z.min_l by lia. reflexivity.
  - rewrite Z.min_r by lia. rewrite Nat2Z.id.
    rewrite !substring_0_all; auto; lia.
Qed.

Lemma py_slice_to_len (s : string) (n : Z) :
  0 <= n -> len (py_slice_to s n) = Z.min n (len s).
Proof.
  intros Hn. rewrite py_slice_to_nonneg by assumption.
  unfold len. rewrite substring_0_length. lia.
Qed.

Lemma py_slice_to_short (s : string) (n : Z) :
  len s <= n -> py_slice_to s n = s.
Proof.
  intros H. unfold len in H. rewrite py_slice_to_nonneg by lia.
  apply substring_0_all. lia.
Qed.

Lemma py_slice_to_stable (s : string) (n : Z) :
  0 <= n -> py_slice_to (py_slice_to s n) n = py_slice_to s n.
Proof.
  intros Hn. apply py_slice_to_short. rewrite py_slice_to_len by assumption. lia.
Qed.

(** ** The sanitization step *)

Lemma sanitize_attributes_fold (base parsed_record : gmap string pyval) (key : string) :
  map_fold sanitize_attribute base parsed_record !! key
  = match parsed_record !! key with
    | Some value =>
        if negb (exempt_attribute key) && truthy value
        then Some (sanitized_value key value)
        else base !! key
    | None => base !! key
    end.
Proof.
  revert key.
  apply (map_fold_weak_ind
           (fun (r : gmap string pyval) (m : gmap string pyval) =>
              forall key, r !! key
                = match m !! key with
                  | Some value =>
                      if negb (exempt_attribute key) && truthy value
                      then Some (sanitized_value key value)
                      else base !! key
                  | None => base !! key
                  end)).
  - intros key. rewrite lookup_empty. reflexivity.
  - intros i x m r Hi IH key. unfold sanitize_attribute.
    destruct (decide (i = key)) as [-> | Hne].
    + rewrite lookup_insert_eq. specialize (IH key). rewrite Hi in IH.
      unfold sanitized_value.
      destruct (negb (exempt_attribute key) && truthy x).
      * rewrite lookup_insert_eq. reflexivity.
      * exact IH.
    + rewrite (lookup_insert_ne m i key) by assumption.
      destruct (negb (exempt_attribute i) && truthy x).
      * rewrite lookup_insert_ne by assumption. apply IH.
      * apply IH.
Qed.

Lemma sanitize_attributes_lookup (parsed_record : gmap string pyval) (key : string) :
  sanitize_attributes parsed_record !! key
  = sanitized_value key <$> parsed_record !! key.
Proof.
  unfold sanitize_attributes. rewrite sanitize_attributes_fold.
  unfold sanitized_value.
  destruct (parsed_record !! key) as [value |]; simpl; [| reflexivity].
  destruct (negb (exempt_attribute key) && truthy value); reflexivity.
Qed.

Lemma content_is_exempt : exempt_attribute "content" = true.
Proof. reflexivity. Qed.

Lemma sanitized_value_exempt (key : string) (value : pyval) :
  exempt_attribute key = true -> sanitized_value key value = value.
Proof. intros H. unfold sanitized_value. rewrite H. reflexivity. Qed.

Lemma sanitized_value_stable (key : string) (value : pyval) :
  0 <= attribute_value_length_limit ->
  sanitized_value key (sanitized_value key value) = sanitized_value key value.
Proof.
  intros Hlimit. unfold sanitized_value.
  destruct (negb (exempt_attribute key)); simpl; [| reflexivity].
  destruct (truthy value) eqn:Ht; simpl; [| rewrite Ht; reflexivity].
  destruct (negb (String.eqb _ "")); [| reflexivity].
  rewrite py_slice_to_stable by assumption. reflexivity.
Qed.

Lemma sanitize_content_on_string (parsed_record : gmap string pyval) (content : string)
    (w : World) :
  parsed_record !! "content" = Some (PStr content) ->
  sanitize_content parsed_record w
  = if truthy (PStr content) && (len content >? content_length_limit)
    then (Ok (<["content" :=
                  PStr (String.append
                          (py_slice_to content
                             (content_length_limit
                              - len DYNATRACE_LOG_INGEST_CONTENT_MARK_TRIMMED))
                          DYNATRACE_LOG_INGEST_CONTENT_MARK_TRIMMED)]> parsed_record),
          set_self_monitoring (append_too_long_content_size (len content)) w)
    else (Ok parsed_record, w).
Proof.
  intros Hc. unfold sanitize_content. rewrite Hc.
  destruct (truthy (PStr content)); [| reflexivity].
  run_monad. destruct (len content >? content_length_limit); reflexivity.
Qed.

(** C5. A string content no longer than [content_length_limit] comes out of
    the sanitization step as it went in, and nothing is recorded; a string
    content of length [L] above the limit comes out as its first
    [content_length_limit - len("[TRUNCATED]")] characters followed by
    ["[TRUNCATED]"], of total length [content_length_limit], and [L] is
    appended to [too_long_content_size]. The count of kept characters is a
    number of characters when the limit leaves room for the marker. *)
Theorem sanitize_content_round_trip (parsed_record : gmap string pyval) (content : string)
    (w : World) :
  parsed_record !! "content" = Some (PStr content) ->
  (len content <= content_length_limit ->
   exists sanitized,
     sanitize parsed_record w = (Ok sanitized, w)
     /\ sanitized !! "content" = Some (PStr content))
  /\ (len content > content_length_limit ->
      len DYNATRACE_LOG_INGEST_CONTENT_MARK_TRIMMED <= content_length_limit ->
      exists sanitized,
        let kept := String.substring 0
                      (Z.to_nat (content_length_limit
                                 - len DYNATRACE_LOG_INGEST_CONTENT_MARK_TRIMMED))
                      content in
        sanitize parsed_record w
        = (Ok sanitized,
           set_self_monitoring (append_too_long_content_size (len content)) w)
        /\ sanitized !! "content"
           = Some (PStr (String.append kept DYNATRACE_LOG_INGEST_CONTENT_MARK_TRIMMED))
        /\ len kept
           = content_length_limit - len DYNATRACE_LOG_INGEST_CONTENT_MARK_TRIMMED
        /\ len (String.append kept DYNATRACE_LOG_INGEST_CONTENT_MARK_TRIMMED)
           = content_length_limit
        /\ too_long_content_size
             (self_monitoring
                (set_self_monitoring (append_too_long_content_size (len content)) w))
           = too_long_content_size (self_monitoring w) ++ [len content]).
Proof.
  intros Hc.
  assert (Hattr : sanitize_attributes parsed_record !! "content" = Some (PStr content)).
  { rewrite sanitize_attributes_lookup, Hc. simpl.
    rewrite sanitized_value_exempt by apply content_is_exempt. reflexivity. }
  unfold sanitize. rewrite (sanitize_content_on_string _ _ w Hattr).
  split.
  - intros Hshort.
    replace (len content >? content_length_limit) with false
      by (symmetry; rewrite Z.gtb_ltb; apply Z.ltb_ge; lia).
    rewrite andb_false_r. eauto.
  - intros Hlong Hroom.
    assert (Hmark : len DYNATRACE_LOG_INGEST_CONTENT_MARK_TRIMMED = 11) by reflexivity.
    replace (len content >? content_length_limit) with true
      by (symmetry; apply Z.gtb_lt; lia).
    assert (Hne : content <> "").
    { intros ->. unfold len in Hlong. simpl in Hlong. lia. }
    rewrite (truthy_PStr content Hne). simpl andb. cbv iota.
    eexists. cbv zeta.
    rewrite py_slice_to_nonneg by lia.
    split; [reflexivity |]. split; [apply lookup_insert_eq |].
    assert (Hkept : len (String.substring 0
                (Z.to_nat (content_length_limit
                           - len DYNATRACE_LOG_INGEST_CONTENT_MARK_TRIMMED)) content)
              = content_length_limit - len DYNATRACE_LOG_INGEST_CONTENT_MARK_TRIMMED).
    { unfold len at 1. rewrite substring_0_length. unfold len in Hlong. lia. }
    split; [exact Hkept |]. split; [| reflexivity].
    rewrite len_append, Hkept. lia.
Qed.

(** After the content block, the other keys are as before and the content,
    when there is one worth handling, is a string within the limit. *)
Lemma sanitize_content_settles (parsed_record sanitized : gmap string pyval) (w w' : World) :
  len DYNATRACE_LOG_INGEST_CONTENT_MARK_TRIMMED <= content_length_limit ->
  sanitize_content parsed_record w = (Ok sanitized, w') ->
  (forall key, key <> "content" -> sanitized !! key = parsed_record !! key)
  /\ match sanitized !! "content" with
     | None => True
     | Some value =>
         truthy value = false
         \/ exists content, value = PStr content /\ len content <= content_length_limit
     end.
Proof.
  intros Hroom H.
  assert (Hmark : len DYNATRACE_LOG_INGEST_CONTENT_MARK_TRIMMED = 11) by reflexivity.
  unfold sanitize_content in H.
  destruct (parsed_record !! "content") as [content |] eqn:Hc.
  - destruct (truthy content) eqn:Ht.
    + run_monad_in H.
      destruct (match content with PStr s => Ok s | _ => json_dumps content end)
        as [serialized | e] eqn:Hser; [| discriminate].
      destruct (len serialized >? content_length_limit) eqn:Hlong.
      * injection H as <- <-. split.
        -- intros key Hkey. rewrite lookup_insert_ne by congruence.
           destruct (is_str content); [reflexivity |].
           rewrite lookup_insert_ne by congruence. reflexivity.
        -- rewrite lookup_insert_eq. right. eexists. split; [reflexivity |].
           apply Z.gtb_lt in Hlong.
           rewrite len_append, py_slice_to_len by lia. lia.
      * injection H as <- <-.
        assert (Hshort : len serialized <= content_length_limit).
        { rewrite Z.gtb_ltb in Hlong. apply Z.ltb_ge in Hlong. lia. }
        split.
        -- intros key Hkey. destruct (is_str content); [reflexivity |].
           rewrite lookup_insert_ne by congruence. reflexivity.
        -- destruct content; simpl in *;
             try (rewrite lookup_insert_eq; right; eauto).
           injection Hser as ->. rewrite Hc. right; eauto.
    + injection H as <- <-. split; [reflexivity |]. rewrite Hc. left; assumption.
  - injection H as <- <-. split; [reflexivity |]. rewrite Hc. exact I.
Qed.

Lemma sanitize_content_settled (parsed_record : gmap string pyval) (w : World) :
  match parsed_record !! "content" with
  | None => True
  | Some value =>
      truthy value = false
      \/ exists content, value = PStr content /\ len content <= content_length_limit
  end ->
  sanitize_content parsed_record w = (Ok parsed_record, w).
Proof.
  destruct (parsed_record !! "content") as [value |] eqn:Hc.
  - intros [Hfalsy | (content & -> & Hshort)].
    + unfold sanitize_content. rewrite Hc, Hfalsy. reflexivity.
    + rewrite (sanitize_content_on_string _ _ w Hc).
      replace (len content >? content_length_limit) with false
        by (symmetry; rewrite Z.gtb_ltb; apply Z.ltb_ge; lia).
      rewrite andb_false_r. reflexivity.
  - intros _. unfold sanitize_content. rewrite Hc. reflexivity.
Qed.

Lemma sanitize_attributes_fixed (parsed_record sanitized : gmap string pyval) :
  0 <= attribute_value_length_limit ->
  (forall key, key <> "content" ->
               sanitized !! key = sanitize_attributes parsed_record !! key) ->
  sanitize_attributes sanitized = sanitized.
Proof.
  intros Hlimit Hsame. apply map_eq. intros key.
  rewrite sanitize_attributes_lookup.
  destruct (decide (key = "content")) as [-> | Hne].
  - destruct (sanitized !! "content"); simpl; [| reflexivity].
    rewrite sanitized_value_exempt by apply content_is_exempt. reflexivity.
  - rewrite (Hsame key Hne), sanitize_attributes_lookup.
    destruct (parsed_record !! key); simpl; [| reflexivity].
    rewrite sanitized_value_stable by assumption. reflexivity.
Qed.

(** C6, as the code has it. When the limits are lengths
    ([attribute_value_length_limit] is not negative and
    [content_length_limit] leaves room for the marker), the sanitization
    step is idempotent: run on the record it has just produced, it returns
    that record again and records nothing more. *)
Theorem sanitize_idempotent (parsed_record sanitized : gmap string pyval) (w w' : World) :
  0 <= attribute_value_length_limit ->
  len DYNATRACE_LOG_INGEST_CONTENT_MARK_TRIMMED <= content_length_limit ->
  sanitize parsed_record w = (Ok sanitized, w') ->
  sanitize sanitized w' = (Ok sanitized, w').
Proof.
  intros Hattr Hroom Hfirst. unfold sanitize in *.
  destruct (sanitize_content_settles _ _ _ _ Hroom Hfirst) as [Hkeys Hcontent].
  rewrite (sanitize_attributes_fixed parsed_record sanitized Hattr Hkeys).
  apply sanitize_content_settled, Hcontent.
Qed.

(** ** The drop filter *)

(** C7. When the drop filter answers "filter out" on the dictionary built
    from the record so far, [parse_record] returns [None] at once and the
    world is as it was: no counter has moved, [too_long_content_size] and
    [dt_payload] have not grown, and neither has the list of outside calls.
    [process_record] then returns without appending, inside or outside the
    [try] of the batch loop. *)
Theorem drop_filter_short_circuits (record : list (string * pyval))
    (with_severity partial : gmap string pyval) (w : World) :
  extract_severity record {[ "cloud.provider" := PStr "Azure" ]} = Ok with_severity ->
  extract_resource_id record (extract_cloud_log_forwarder with_severity) = Ok partial ->
  should_filter_out_record partial = Ok true ->
  parse_record record w = (Ok None, w)
  /\ (forall raw : pyval,
        deserialize_properties raw = Ok record ->
        process_record raw w = (Ok tt, w)
        /\ process_record_guarded raw w = (Ok tt, w)).
Proof.
  intros Hsev Hres Hdrop.
  assert (Hparse : parse_record record w = (Ok None, w)).
  { unfold parse_record. run_monad. rewrite Hsev, Hres, Hdrop. reflexivity. }
  split; [exact Hparse |].
  intros raw Hraw.
  assert (Hproc : process_record raw w = (Ok tt, w)).
  { unfold process_record, bind, lift at 1. rewrite Hraw, Hparse. reflexivity. }
  split; [exact Hproc |].
  unfold process_record_guarded, try_except. rewrite Hproc. reflexivity.
Qed.

(** ** Stale events *)

(** C8. An event whose enqueue timestamp the guard judges too old is
    skipped before its body is looked at: [process_event] returns normally
    in the world the guard left, whatever the body is; no decoding call is
    made, the payload and [parsing_errors] are as before, and
    [too_old_records] has grown by one. *)
Theorem stale_event_is_skipped (event : EventHubEvent) (w w' : World) :
  is_too_old (event_timestamp event) "event" w = (Ok true, w') ->
  (forall body : list Byte.byte,
      process_event (mkEvent (enqueued_time event) body) w = (Ok tt, w'))
  /\ process_event event w = (Ok tt, w')
  /\ calls w' = calls w
  /\ dt_payload w' = dt_payload w
  /\ parsing_errors (self_monitoring w') = parsing_errors (self_monitoring w)
  /\ too_old_records (self_monitoring w') = too_old_records (self_monitoring w) + 1.
Proof.
  intros Hold.
  assert (Hany : forall body,
             process_event (mkEvent (enqueued_time event) body) w = (Ok tt, w')).
  { intros body. unfold process_event, bind.
    change (event_timestamp (mkEvent (enqueued_time event) body))
      with (event_timestamp event).
    rewrite Hold. reflexivity. }
  split; [exact Hany |].
  split; [destruct event as [t body]; apply Hany |].
  rewrite (is_too_old_true _ _ _ _ Hold). repeat split.
Qed.

(** ** Fault isolation in the loop over records *)

Lemma sanitize_content_raise (parsed_record : gmap string pyval) (e : exn) (w w' : World) :
  sanitize_content parsed_record w = (Raise e, w') -> w' = w.
Proof.
  unfold sanitize_content. intros H.
  destruct (parsed_record !! "content") as [content |]; [| discriminate].
  destruct (truthy content); [| discriminate].
  run_monad_in H.
  destruct (match content with PStr s => Ok s | _ => json_dumps content end)
    as [serialized | e0]; [| congruence].
  destruct (len serialized >? content_length_limit); discriminate.
Qed.

Lemma parse_record_raise (record : list (string * pyval)) (e : exn) (w w' : World) :
  parse_record record w = (Raise e, w') -> w' = w.
Proof.
  unfold parse_record, sanitize. intros H. unfold bind at 1 2 3, lift in H.
  destruct (extract_severity _ _); [| congruence].
  destruct (extract_resource_id _ _); [| congruence].
  destruct (should_filter_out_record _) as [[|] |]; [discriminate | | congruence].
  unfold bind at 1 2 3 in H.
  destruct (metadata_engine_apply _ _); [| congruence].
  destruct (category_lower _); [| congruence].
  destruct (infer_monitored_entity_id _ _); [| congruence].
  unfold bind, ret in H.
  destruct (sanitize_content _ w) as [[sanitized | e'] w''] eqn:Hs; [discriminate |].
  injection H as _ <-. eapply sanitize_content_raise, Hs.
Qed.

Lemma is_too_old_returns (timestamp : pyval) (log_part : string) (w : World) :
  exists answer w', is_too_old timestamp log_part w = (Ok answer, w').
Proof.
  destruct (is_too_old_cases timestamp log_part w) as [E | [E | [E | [E | E]]]];
    rewrite E; eauto.
Qed.

Lemma process_record_raise (record : pyval) (e : exn) (w w' : World) :
  process_record record w = (Raise e, w') -> w' = w.
Proof.
  unfold process_record. intros H. unfold bind at 1 2, lift in H.
  destruct (deserialize_properties record) as [entries | e0]; [| congruence].
  destruct (parse_record entries w) as [[[parsed |] | e1] w1] eqn:Hp.
  - destruct (bool_decide (parsed = ∅)); [discriminate |].
    unfold bind, ret, modify in H.
    destruct (is_too_old_returns (default PNone (parsed !! "timestamp")) "record" w1)
      as (answer & w2 & Ht).
    rewrite Ht in H. destruct answer; discriminate.
  - discriminate.
  - injection H as _ <-. eapply parse_record_raise, Hp.
Qed.

Lemma commutes_ret {A} (a : A) : commutes_with_error_count (ret a).
Proof. intros w. reflexivity. Qed.

Lemma commutes_lift {A} (r : result A) : commutes_with_error_count (lift r).
Proof. intros w. reflexivity. Qed.

Lemma commutes_bind {A B} (m : M A) (k : A -> M B) :
  commutes_with_error_count m ->
  (forall a, commutes_with_error_count (k a)) ->
  commutes_with_error_count (bind m k).
Proof.
  intros Hm Hk w. unfold bind. rewrite Hm.
  destruct (m w) as [[a | e] w1]; simpl; [apply Hk | reflexivity].
Qed.

Lemma commutes_try_except {A} (m : M A) (handler : exn -> M A) :
  commutes_with_error_count m ->
  (forall e, commutes_with_error_count (handler e)) ->
  commutes_with_error_count (try_except m handler).
Proof.
  intros Hm Hh w. unfold try_except. rewrite Hm.
  destruct (m w) as [[a | e] w1]; simpl; [reflexivity | apply Hh].
Qed.

Lemma commutes_modify (f : World -> World) :
  (forall w, f (set_self_monitoring incr_parsing_errors w)
             = set_self_monitoring incr_parsing_errors (f w)) ->
  commutes_with_error_count (modify f).
Proof. intros Hf w. unfold modify. simpl. rewrite Hf. reflexivity. Qed.

Lemma commutes_datetime_now_utc : commutes_with_error_count datetime_now_utc.
Proof. intros w. reflexivity. Qed.

Ltac commutes_step :=
  first
    [ apply commutes_ret
    | apply commutes_lift
    | apply commutes_datetime_now_utc
    | apply commutes_modify; intros ?; reflexivity
    | apply commutes_bind; [| intros ?]
    | apply commutes_try_except; [| intros ?]
    | match goal with
      | |- commutes_with_error_count (if ?b then _ else _) => destruct b
      | |- commutes_with_error_count (match ?x with _ => _ end) => destruct x
      end ].

Lemma commutes_is_too_old (timestamp : pyval) (log_part : string) :
  commutes_with_error_count (is_too_old timestamp log_part).
Proof. unfold is_too_old. repeat commutes_step. Qed.

Lemma commutes_sanitize_content (parsed_record : gmap string pyval) :
  commutes_with_error_count (sanitize_content parsed_record).
Proof. unfold sanitize_content. repeat commutes_step. Qed.

Lemma commutes_parse_record (record : list (string * pyval)) :
  commutes_with_error_count (parse_record record).
Proof.
  unfold parse_record, sanitize.
  repeat first [apply commutes_sanitize_content | commutes_step].
Qed.

Lemma commutes_process_record (record : pyval) :
  commutes_with_error_count (process_record record).
Proof.
  unfold process_record.
  repeat first [apply commutes_parse_record | apply commutes_is_too_old | commutes_step].
Qed.

Lemma commutes_process_record_guarded (record : pyval) :
  commutes_with_error_count (process_record_guarded record).
Proof.
  unfold process_record_guarded.
  repeat first [apply commutes_process_record | commutes_step].
Qed.

Lemma commutes_for_each {A} (body : A -> M unit) (items : list A) :
  (forall item, commutes_with_error_count (body item)) ->
  commutes_with_error_count (for_each body items).
Proof.
  intros Hbody. induction items as [| item rest IH]; simpl.
  - apply commutes_ret.
  - apply commutes_bind; [apply Hbody | intros _; exact IH].
Qed.

Lemma for_each_app {A} (body : A -> M unit) (xs ys : list A) (w : World) :
  for_each body (xs ++ ys) w
  = match for_each body xs w with
    | (Ok _, w1) => for_each body ys w1
    | (Raise e, w1) => (Raise e, w1)
    end.
Proof.
  revert w. induction xs as [| x xs IH]; intros w; simpl.
  - reflexivity.
  - unfold bind. destruct (body x w) as [[[] | e] w1]; [apply IH | reflexivity].
Qed.

(** The guarded call never raises. *)
Lemma process_record_guarded_returns (record : pyval) (w : World) :
  exists w', process_record_guarded record w = (Ok tt, w').
Proof.
  unfold process_record_guarded, try_except.
  destruct (process_record record w) as [[[] | e] w1]; [eauto |].
  destruct e; unfold modify; eauto.
Qed.

Lemma process_record_guarded_on_raise (record : pyval) (e : exn) (w w' : World) :
  process_record record w = (Raise e, w') ->
  process_record_guarded record w
  = (Ok tt, set_self_monitoring incr_parsing_errors w).
Proof.
  intros H. unfold process_record_guarded, try_except. rewrite H.
  rewrite (process_record_raise _ _ _ _ H). destruct e; reflexivity.
Qed.

Lemma for_each_guarded_returns (records : list pyval) (w : World) :
  exists w', for_each process_record_guarded records w = (Ok tt, w').
Proof.
  revert w. induction records as [| record rest IH]; intros w; simpl.
  - unfold ret. eauto.
  - unfold bind.
    destruct (process_record_guarded_returns record w) as [w1 ->]. apply IH.
Qed.

Lemma process_event_decoded (event : EventHubEvent) (w w' : World) (text : string)
    (entries : list (string * pyval)) (records : list pyval) :
  is_too_old (event_timestamp event) "event" w = (Ok false, w') ->
  bytes_decode_utf8 (get_body event) = Ok text ->
  json_loads text = Ok (PDict entries) ->
  dict_get entries "records" = Some (PList records) ->
  process_event event w
  = for_each process_record_guarded records (with_decode_call (get_body event) w').
Proof.
  intros Hguard Htext Hjson Hrecords. unfold process_event. unfold bind at 1.
  rewrite Hguard. run_monad. rewrite Htext, Hjson. simpl. rewrite Hrecords.
  reflexivity.
Qed.

(** *** What the loop puts in the payload *)

Lemma sanitize_content_payload (parsed_record : gmap string pyval)
    (r : result (gmap string pyval)) (w w' : World) :
  sanitize_content parsed_record w = (r, w') -> dt_payload w' = dt_payload w.
Proof.
  unfold sanitize_content. intros H.
  destruct (parsed_record !! "content") as [content |];
    [| injection H as _ <-; reflexivity].
  destruct (truthy content); [| injection H as _ <-; reflexivity].
  run_monad_in H.
  destruct (match content with PStr s => Ok s | _ => json_dumps content end)
    as [serialized | e0]; [| injection H as _ <-; reflexivity].
  destruct (len serialized >? content_length_limit);
    injection H as _ <-; reflexivity.
Qed.

Lemma parse_record_payload (record : list (string * pyval))
    (r : result (option (gmap string pyval))) (w w' : World) :
  parse_record record w = (r, w') -> dt_payload w' = dt_payload w.
Proof.
  unfold parse_record, sanitize. intros H. unfold bind at 1 2 3, lift in H.
  destruct (extract_severity _ _); [| injection H as _ <-; reflexivity].
  destruct (extract_resource_id _ _); [| injection H as _ <-; reflexivity].
  destruct (should_filter_out_record _) as [[|] |];
    [injection H as _ <-; reflexivity | | injection H as _ <-; reflexivity].
  unfold bind at 1 2 3 in H.
  destruct (metadata_engine_apply _ _); [| injection H as _ <-; reflexivity].
  destruct (category_lower _); [| injection H as _ <-; reflexivity].
  destruct (infer_monitored_entity_id _ _); [| injection H as _ <-; reflexivity].
  unfold bind, ret in H.
  destruct (sanitize_content _ w) as [[sanitized | e'] w''] eqn:Hs;
    injection H as _ <-; eapply sanitize_content_payload, Hs.
Qed.

Lemma is_too_old_payload (timestamp : pyval) (log_part : string) (w : World) :
  dt_payload (snd (is_too_old timestamp log_part w)) = dt_payload w.
Proof.
  destruct (is_too_old_cases timestamp log_part w) as [E | [E | [E | [E | E]]]];
    rewrite E; reflexivity.
Qed.

(** The guarded call extends the payload, at its end, by what the record
    yields. *)
Lemma process_record_guarded_payload (record : pyval) (w : World) :
  dt_payload (snd (process_record_guarded record w))
  = dt_payload w ++ record_yield record w.
Proof.
  unfold process_record_guarded, try_except, process_record, record_yield.
  unfold bind at 1 2, lift.
  destruct (deserialize_properties record) as [entries | e0].
  - destruct (parse_record entries w) as [[[parsed |] | e1] w1] eqn:Hparse;
      pose proof (parse_record_payload _ _ _ _ Hparse) as Hp1.
    + destruct (bool_decide (parsed = ∅)).
      * simpl. rewrite app_nil_r. exact Hp1.
      * unfold bind, ret, modify.
        pose proof (is_too_old_payload (default PNone (parsed !! "timestamp"))
                      "record" w1) as Hp2.
        destruct (is_too_old (default PNone (parsed !! "timestamp")) "record" w1)
          as [[[|] | e2] w2]; simpl in *.
        -- rewrite app_nil_r. congruence.
        -- congruence.
        -- destruct e2; simpl; rewrite app_nil_r; congruence.
    + simpl. rewrite app_nil_r. exact Hp1.
    + destruct e1; simpl; rewrite app_nil_r; exact Hp1.
  - destruct e0; simpl; rewrite app_nil_r; reflexivity.
Qed.

Lemma for_each_guarded_payload (records : list pyval) (w : World) :
  dt_payload (snd (for_each process_record_guarded records w))
  = dt_payload w ++ batch_yield records w.
Proof.
  revert w. induction records as [| record rest IH]; intros w;
    cbn [for_each batch_yield].
  - unfold ret. simpl. rewrite app_nil_r. reflexivity.
  - unfold bind.
    pose proof (process_record_guarded_payload record w) as Hp.
    destruct (process_record_guarded_returns record w) as [w1 Hrun].
    rewrite Hrun in *. cbn [snd] in *. rewrite IH, Hp, app_assoc. reflexivity.
Qed.

Lemma batch_yield_app (xs ys : list pyval) (w : World) :
  batch_yield (xs ++ ys) w
  = batch_yield xs w ++ batch_yield ys (snd (for_each process_record_guarded xs w)).
Proof.
  revert w. induction xs as [| x xs IH]; intros w;
    cbn [app for_each batch_yield].
  - reflexivity.
  - rewrite IH, app_assoc. unfold bind.
    destruct (process_record_guarded_returns x w) as [w1 Hrun].
    rewrite Hrun. reflexivity.
Qed.

(** What a record yields does not depend on the count of parsing errors. *)
Lemma record_yield_error_count (record : pyval) (w : World) :
  record_yield record (set_self_monitoring incr_parsing_errors w)
  = record_yield record w.
Proof.
  unfold record_yield.
  destruct (deserialize_properties record) as [entries |]; [| reflexivity].
  rewrite (commutes_parse_record entries w).
  destruct (parse_record entries w) as [[[parsed |] | e1] w1]; simpl; try reflexivity.
  destruct (bool_decide (parsed = ∅)); [reflexivity |].
  rewrite (commutes_is_too_old _ "record" w1).
  destruct (is_too_old _ "record" w1) as [[[|] | e2] w2]; reflexivity.
Qed.

Lemma batch_yield_error_count (records : list pyval) (w : World) :
  batch_yield records (set_self_monitoring incr_parsing_errors w)
  = batch_yield records w.
Proof.
  revert w. induction records as [| record rest IH]; intros w;
    cbn [batch_yield].
  - reflexivity.
  - rewrite record_yield_error_count.
    rewrite (commutes_process_record_guarded record w). cbn [snd].
    rewrite IH. reflexivity.
Qed.

(** C1. In the loop over the records of an event, a record whose
    processing raises (a JSON decoding failure in its properties, or any
    other exception) is skipped and counted once: the loop over the whole
    list returns normally, and ends in the world the loop over the list
    without that record would end in, with one more parsing error. The
    failing record yields nothing, and the payload at the end is the
    payload at the start followed by what each of the other records
    yields (its parsed record, when it is kept), in the order of arrival:
    first the records before the failing one, then the records after it.
    The other counters are as without the failing record. At the raise
    itself nothing had been changed yet. An event whose body decodes to
    these records returns normally, so the loop over the events goes on. *)
Theorem failing_record_is_isolated (before after : list pyval) (bad : pyval)
    (e : exn) (w w_raise : World) :
  process_record bad (snd (for_each process_record_guarded before w)) = (Raise e, w_raise) ->
  exists w_without,
    for_each process_record_guarded (before ++ after) w = (Ok tt, w_without)
    /\ for_each process_record_guarded (before ++ bad :: after) w
       = (Ok tt, set_self_monitoring incr_parsing_errors w_without)
    /\ dt_payload (set_self_monitoring incr_parsing_errors w_without)
       = dt_payload w_without
    /\ parsing_errors (self_monitoring (set_self_monitoring incr_parsing_errors w_without))
       = parsing_errors (self_monitoring w_without) + 1
    /\ w_raise = snd (for_each process_record_guarded before w)
    /\ record_yield bad (snd (for_each process_record_guarded before w)) = []
    /\ dt_payload (set_self_monitoring incr_parsing_errors w_without)
       = dt_payload w
         ++ batch_yield before w
         ++ batch_yield after (snd (for_each process_record_guarded before w))
    /\ batch_yield (before ++ bad :: after) w
       = batch_yield before w
         ++ batch_yield after (snd (for_each process_record_guarded before w))
    /\ (forall (event : EventHubEvent) (w0 w_guard : World) (text : string)
               (entries : list (string * pyval)),
          is_too_old (event_timestamp event) "event" w0 = (Ok false, w_guard) ->
          w = with_decode_call (get_body event) w_guard ->
          bytes_decode_utf8 (get_body event) = Ok text ->
          json_loads text = Ok (PDict entries) ->
          dict_get entries "records" = Some (PList (before ++ bad :: after)) ->
          process_event event w0
          = (Ok tt, set_self_monitoring incr_parsing_errors w_without)).
Proof.
  intros Hbad.
  destruct (for_each_guarded_returns before w) as [w1 Hbefore].
  rewrite Hbefore in Hbad. simpl in Hbad.
  destruct (for_each_guarded_returns after w1) as [w2 Hafter].
  assert (Hwith : for_each process_record_guarded (before ++ bad :: after) w
                  = (Ok tt, set_self_monitoring incr_parsing_errors w2)).
  { rewrite for_each_app, Hbefore. simpl. unfold bind.
    rewrite (process_record_guarded_on_raise _ _ _ _ Hbad).
    rewrite (commutes_for_each _ after commutes_process_record_guarded w1).
    rewrite Hafter. reflexivity. }
  exists w2. split; [rewrite for_each_app, Hbefore; exact Hafter |].
  split; [exact Hwith |]. split; [reflexivity |]. split; [reflexivity |].
  split; [rewrite Hbefore; simpl; eapply process_record_raise, Hbad |].
  assert (Hnothing : record_yield bad w1 = []).
  { unfold record_yield. unfold process_record in Hbad.
    unfold bind at 1 2, lift in Hbad.
    destruct (deserialize_properties bad) as [entries |]; [| reflexivity].
    destruct (parse_record entries w1) as [[[parsed |] | e1] w3]; try reflexivity.
    destruct (bool_decide (parsed = ∅)); [reflexivity |].
    unfold bind, ret, modify in Hbad.
    destruct (is_too_old _ "record" w3) as [[[|] | e2] w4]; try reflexivity.
    discriminate Hbad. }
  assert (Hyield : batch_yield (before ++ bad :: after) w
                   = batch_yield before w ++ batch_yield after w1).
  { rewrite batch_yield_app, Hbefore. cbn [snd batch_yield].
    rewrite Hnothing. cbn [app].
    rewrite (process_record_guarded_on_raise _ _ _ _ Hbad). cbn [snd].
    rewrite batch_yield_error_count. reflexivity. }
  rewrite Hbefore. simpl snd.
  split; [exact Hnothing |].
  split.
  { pose proof (for_each_guarded_payload (before ++ bad :: after) w) as Hp.
    rewrite Hwith in Hp. simpl snd in Hp. rewrite Hp, Hyield. reflexivity. }
  split; [exact Hyield |].
  intros event w0 w_guard text entries Hguard -> Htext Hjson Hrecords.
  rewrite (process_event_decoded _ _ _ _ _ _ Hguard Htext Hjson Hrecords).
  exact Hwith.
Qed.

(** ** Finalization *)

Lemma same_flushes_refl (w : World) : same_flushes w w.
Proof. split; reflexivity. Qed.

Lemma same_flushes_trans (w1 w2 w3 : World) :
  same_flushes w1 w2 -> same_flushes w2 w3 -> same_flushes w1 w3.
Proof. intros [H1 H2] [H3 H4]. split; congruence. Qed.

Lemma same_flushes_same_calls (w w' : World) : calls w' = calls w -> same_flushes w w'.
Proof. intros H. unfold same_flushes. rewrite H. split; reflexivity. Qed.

Lemma count_log_calls_app (cs ds : list Call) :
  count_log_calls (cs ++ ds) = (count_log_calls cs + count_log_calls ds)%nat.
Proof. induction cs as [| [] cs IH]; simpl; lia. Qed.

Lemma count_push_calls_app (cs ds : list Call) :
  count_push_calls (cs ++ ds) = (count_push_calls cs + count_push_calls ds)%nat.
Proof. induction cs as [| [] cs IH]; simpl; lia. Qed.

Lemma quiet_ret {A} (a : A) : quiet (ret a).
Proof. intros w r w' H. injection H as _ <-. apply same_flushes_refl. Qed.

Lemma quiet_raise {A} (e : exn) : quiet (@raise A e).
Proof. intros w r w' H. injection H as _ <-. apply same_flushes_refl. Qed.

Lemma quiet_lift {A} (r : result A) : quiet (lift r).
Proof. intros w r' w' H. injection H as _ <-. apply same_flushes_refl. Qed.

Lemma quiet_gets {A} (f : World -> A) : quiet (gets f).
Proof. intros w r w' H. injection H as _ <-. apply same_flushes_refl. Qed.

Lemma quiet_bind {A B} (m : M A) (k : A -> M B) :
  quiet m -> (forall a, quiet (k a)) -> quiet (bind m k).
Proof.
  intros Hm Hk w r w' H. unfold bind in H.
  destruct (m w) as [[a | e] w1] eqn:Hmw.
  - eapply same_flushes_trans; [eapply Hm, Hmw | eapply Hk, H].
  - injection H as _ <-. eapply Hm, Hmw.
Qed.

Lemma quiet_try_except {A} (m : M A) (handler : exn -> M A) :
  quiet m -> (forall e, quiet (handler e)) -> quiet (try_except m handler).
Proof.
  intros Hm Hh w r w' H. unfold try_except in H.
  destruct (m w) as [[a | e] w1] eqn:Hmw.
  - injection H as _ <-. eapply Hm, Hmw.
  - eapply same_flushes_trans; [eapply Hm, Hmw | eapply Hh, H].
Qed.

Lemma quiet_modify (f : World -> World) :
  (forall w, calls (f w) = calls w) -> quiet (modify f).
Proof.
  intros Hf w r w' H. injection H as _ <-. apply same_flushes_same_calls, Hf.
Qed.

Lemma quiet_datetime_now_utc : quiet datetime_now_utc.
Proof. intros w r w' H. injection H as _ <-. apply same_flushes_same_calls. reflexivity. Qed.

Lemma quiet_time_perf_counter : quiet time_perf_counter.
Proof. intros w r w' H. injection H as _ <-. apply same_flushes_same_calls. reflexivity. Qed.

Lemma quiet_decode_call (body : list Byte.byte) : quiet (record_call (CallDecodeBody body)).
Proof.
  intros w r w' H. injection H as _ <-. split; simpl.
  - rewrite count_log_calls_app. simpl. lia.
  - rewrite count_push_calls_app. simpl. lia.
Qed.

Lemma quiet_call_send_logs (url key : string) (payload : list (gmap string pyval)) :
  quiet (call_send_logs url key payload).
Proof.
  intros w r w' H. unfold call_send_logs in H.
  destruct (send_logs url key payload (self_monitoring w)) as [r0 sm].
  injection H as _ <-. split; simpl.
  - rewrite count_log_calls_app. simpl. lia.
  - rewrite count_push_calls_app. simpl. lia.
Qed.

Ltac quiet_step :=
  first
    [ apply quiet_ret
    | apply quiet_raise
    | apply quiet_lift
    | apply quiet_gets
    | apply quiet_datetime_now_utc
    | apply quiet_time_perf_counter
    | apply quiet_decode_call
    | apply quiet_call_send_logs
    | apply quiet_modify; intros ?; reflexivity
    | apply quiet_bind; [| intros ?]
    | apply quiet_try_except; [| intros ?]
    | match goal with
      | |- quiet (if ?b then _ else _) => destruct b
      | |- quiet (match ?x with _ => _ end) => destruct x
      end ].

Lemma quiet_for_each {A} (body : A -> M unit) (items : list A) :
  (forall item, quiet (body item)) -> quiet (for_each body items).
Proof.
  intros Hbody. induction items as [| item rest IH]; simpl.
  - apply quiet_ret.
  - apply quiet_bind; [apply Hbody | intros _; exact IH].
Qed.

Lemma quiet_is_too_old (timestamp : pyval) (log_part : string) :
  quiet (is_too_old timestamp log_part).
Proof. unfold is_too_old. repeat quiet_step. Qed.

Lemma quiet_process_record_guarded (record : pyval) : quiet (process_record_guarded record).
Proof.
  unfold process_record_guarded, process_record, parse_record, sanitize, sanitize_content.
  repeat first [apply quiet_is_too_old | quiet_step].
Qed.

Lemma quiet_process_event (event : EventHubEvent) : quiet (process_event event).
Proof.
  unfold process_event.
  repeat first [apply quiet_is_too_old
               | apply quiet_for_each; intros ?; apply quiet_process_record_guarded
               | quiet_step].
Qed.

Lemma quiet_process_logs_try (environ : gmap string string) (events : list EventHubEvent) :
  quiet (process_logs_try environ events).
Proof.
  unfold process_logs_try.
  repeat first [apply quiet_for_each; intros ?; apply quiet_process_event | quiet_step].
Qed.

Lemma process_logs_finally_run (environ : gmap string string) (w : World) :
  process_logs_finally environ w = (Ok tt, flushed environ w).
Proof.
  unfold process_logs_finally, flushed, flush_calls.
  fold (self_monitoring_enabled environ). run_monad.
  destruct (self_monitoring_enabled environ); simpl.
  - unfold modify. simpl. rewrite <- app_assoc. reflexivity.
  - reflexivity.
Qed.

Lemma process_logs_run (environ : gmap string string) (events : list EventHubEvent)
    (w : World) :
  process_logs environ events w
  = (fst (process_logs_try environ events w),
     flushed environ (snd (process_logs_try environ events w))).
Proof.
  unfold process_logs, try_finally, try_except, raise.
  destruct (process_logs_try environ events w) as [[[] | e] w1]; simpl;
    rewrite process_logs_finally_run; reflexivity.
Qed.

(** C9. Whatever the [try] block of [process_logs] does (it returns, it
    raises for a missing setting, or processing or the send raises), the
    invocation ends with that same outcome in the world the block left,
    followed by the flush: one call of [log_self_monitoring_data] and, when
    the flag is set, one call of [push_time_series_to_azure]. Over the whole
    invocation each is called exactly once (the push not at all when the
    flag is not set), and an exception reaches the caller with the flush
    calls already made. *)
Theorem finalization_runs_once (environ : gmap string string)
    (events : list EventHubEvent) (w : World) :
  exists (outcome : result unit) (w_try : World),
    process_logs_try environ events w = (outcome, w_try)
    /\ process_logs environ events w = (outcome, flushed environ w_try)
    /\ calls (flushed environ w_try) = calls w_try ++ flush_calls environ w_try
    /\ count_log_calls (calls (flushed environ w_try))
       = (count_log_calls (calls w) + 1)%nat
    /\ count_push_calls (calls (flushed environ w_try))
       = (count_push_calls (calls w)
          + if self_monitoring_enabled environ then 1 else 0)%nat.
Proof.
  destruct (process_logs_try environ events w) as [outcome w_try] eqn:Htry.
  exists outcome, w_try. split; [reflexivity |].
  split; [rewrite process_logs_run, Htry; reflexivity |].
  split; [reflexivity |].
  destruct (quiet_process_logs_try environ events w outcome w_try Htry) as [Hlog Hpush].
  unfold flushed, flush_calls. simpl.
  rewrite count_log_calls_app, count_push_calls_app, Hlog, Hpush.
  destruct (self_monitoring_enabled environ); simpl; split; lia.
Qed.

(** ** Events whose body cannot be decoded *)

Lemma process_event_undecodable (event : EventHubEvent) (e : exn) (w w' : World) :
  is_too_old (event_timestamp event) "event" w = (Ok false, w') ->
  (bytes_decode_utf8 (get_body event) = Raise e
   \/ exists text, bytes_decode_utf8 (get_body event) = Ok text
                   /\ json_loads text = Raise e) ->
  process_event event w = (Raise e, with_decode_call (get_body event) w').
Proof.
  intros Hfresh Hbody. unfold process_event. unfold bind at 1. rewrite Hfresh.
  run_monad. destruct Hbody as [Hraw | (text & Hraw & Hjson)]; rewrite Hraw.
  - reflexivity.
  - rewrite Hjson. reflexivity.
Qed.

Lemma process_logs_try_raise (environ : gmap string string) (events : list EventHubEvent)
    (e : exn) (w w' : World) :
  is_Some (environ !! DYNATRACE_URL) ->
  is_Some (environ !! DYNATRACE_ACCESS_KEY) ->
  for_each process_event events (loop_start w) = (Raise e, w') ->
  process_logs_try environ events w = (Raise e, w').
Proof.
  intros Hurl Hkey Hloop. unfold process_logs_try.
  rewrite !bool_decide_eq_true_2 by assumption. simpl.
  unfold bind at 1 2 3, modify, time_perf_counter. fold (loop_start w).
  rewrite Hloop. reflexivity.
Qed.

(** C2, as the code has it. The decoding of an event body is outside the
    per-record [try]. When an event that is not too old has a body that is
    not valid UTF-8 or not valid JSON, the exception leaves the loop over
    the events: no parsing error is counted for it, the events after it are
    not looked at, nothing is sent, and [process_logs] raises that exception
    to its caller once the self-monitoring flush has run. *)
Theorem undecodable_event_aborts (environ : gmap string string)
    (before after : list EventHubEvent) (event : EventHubEvent) (e : exn)
    (w w1 w2 : World) :
  is_Some (environ !! DYNATRACE_URL) ->
  is_Some (environ !! DYNATRACE_ACCESS_KEY) ->
  for_each process_event before (loop_start w) = (Ok tt, w1) ->
  is_too_old (event_timestamp event) "event" w1 = (Ok false, w2) ->
  (bytes_decode_utf8 (get_body event) = Raise e
   \/ exists text, bytes_decode_utf8 (get_body event) = Ok text
                   /\ json_loads text = Raise e) ->
  for_each process_event (before ++ event :: after) (loop_start w)
  = (Raise e, with_decode_call (get_body event) w2)
  /\ process_logs environ (before ++ event :: after) w
     = (Raise e, flushed environ (with_decode_call (get_body event) w2))
  /\ self_monitoring (flushed environ (with_decode_call (get_body event) w2))
     = self_monitoring w2
  /\ dt_payload (flushed environ (with_decode_call (get_body event) w2))
     = dt_payload w2
  /\ calls (flushed environ (with_decode_call (get_body event) w2))
     = calls w2 ++ CallDecodeBody (get_body event)
                   :: flush_calls environ w2.
Proof.
  intros Hurl Hkey Hbefore Hfresh Hbody.
  assert (Hloop : for_each process_event (before ++ event :: after) (loop_start w)
                  = (Raise e, with_decode_call (get_body event) w2)).
  { rewrite for_each_app, Hbefore. simpl. unfold bind.
    rewrite (process_event_undecodable event e w1 w2 Hfresh Hbody). reflexivity. }
  split; [exact Hloop |].
  split.
  - rewrite process_logs_run.
    rewrite (process_logs_try_raise environ _ e w _ Hurl Hkey Hloop). reflexivity.
  - repeat split. unfold flushed, with_decode_call, flush_calls. simpl.
    rewrite <- app_assoc. reflexivity.
Qed.

End Properties.

(** * Further properties of the pipeline *)

Section FurtherProperties.

Context {cfg : Config} {rt : Runtime}.

Ltac run_in H :=
  unfold bind, try_except, lift, ret, raise, modify, gets, record_call,
         datetime_now_utc, time_perf_counter in H; simpl in H.

Ltac run :=
  unfold bind, try_except, lift, ret, raise, modify, gets, record_call,
         datetime_now_utc, time_perf_counter; simpl.

(** ** Dictionaries of raw records *)

Lemma dict_get_set_same (entries : list (string * pyval)) (key : string) (value : pyval) :
  dict_get (dict_set entries key value) key = Some value.
Proof.
  induction entries as [| [k v] rest IH]; simpl.
  - rewrite String.eqb_refl. reflexivity.
  - destruct (String.eqb k key) eqn:Hk; simpl; rewrite Hk; [reflexivity | exact IH].
Qed.

Lemma dict_get_set_other (entries : list (string * pyval)) (key other : string)
    (value : pyval) :
  other <> key ->
  dict_get (dict_set entries key value) other = dict_get entries other.
Proof.
  intros Hne. induction entries as [| [k v] rest IH]; simpl.
  - destruct (String.eqb_spec key other); [congruence | reflexivity].
  - destruct (String.eqb_spec k key) as [-> | Hk]; simpl.
    + destruct (String.eqb_spec key other); [congruence | reflexivity].
    + destruct (String.eqb k other); [reflexivity | exact IH].
Qed.

Lemma find_first_match {A} (f : A -> bool) (earlier later : list A) (x : A) :
  Forall (fun y => f y = false) earlier ->
  f x = true ->
  List.find f (earlier ++ x :: later) = Some x.
Proof.
  intros Hearlier Hx. induction Hearlier as [| y earlier Hy _ IH]; simpl.
  - rewrite Hx. reflexivity.
  - rewrite Hy. exact IH.
Qed.

Lemma find_no_match {A} (f : A -> bool) (xs : list A) :
  Forall (fun y => f y = false) xs -> List.find f xs = None.
Proof.
  intros Hxs. induction Hxs as [| y xs Hy _ IH]; simpl.
  - reflexivity.
  - rewrite Hy. exact IH.
Qed.

(** The name [next(...)] picks is the first alias that is a key of the
    record. *)
Lemma first_properties_name_found (entries : list (string * pyval))
    (earlier later : list string) (name : string) :
  azure_properties_names = earlier ++ name :: later ->
  Forall (fun alias => dict_has entries alias = false) earlier ->
  dict_has entries name = true ->
  first_properties_name entries = name.
Proof.
  intros Hnames Hearlier Hname. unfold first_properties_name. rewrite Hnames.
  rewrite (find_first_match (fun properties => dict_has entries properties)
             earlier later name Hearlier Hname).
  reflexivity.
Qed.

Lemma first_properties_name_none (entries : list (string * pyval)) :
  Forall (fun alias => dict_has entries alias = false) azure_properties_names ->
  first_properties_name entries = "".
Proof.
  intros Hnone. unfold first_properties_name.
  rewrite (find_no_match (fun properties => dict_has entries properties) _ Hnone).
  reflexivity.
Qed.

(** ** [deserialize_properties] *)

(** X1. When the first alias of [azure_properties_names] that is a key of
    the record holds a string that is not empty, the decoded string is
    stored under the key ["properties"] (whatever the alias is) and every
    other key keeps its value; when the string does not decode, the
    exception of [json.loads] is raised. *)
Theorem deserialize_properties_decodes (entries : list (string * pyval))
    (earlier later : list string) (name s : string) :
  azure_properties_names = earlier ++ name :: later ->
  Forall (fun alias => dict_has entries alias = false) earlier ->
  dict_get entries name = Some (PStr s) ->
  s <> "" ->
  (forall decoded, json_loads s = Ok decoded ->
     exists updated,
       deserialize_properties (PDict entries) = Ok updated
       /\ dict_get updated "properties" = Some decoded
       /\ forall key, key <> "properties" -> dict_get updated key = dict_get entries key)
  /\ (forall e, json_loads s = Raise e ->
        deserialize_properties (PDict entries) = Raise e).
Proof.
  intros Hnames Hearlier Hvalue Hs.
  assert (Hname : first_properties_name entries = name).
  { apply (first_properties_name_found entries earlier later name Hnames Hearlier).
    unfold dict_has. rewrite Hvalue. reflexivity. }
  assert (Htruthy : truthy (PStr s) = true).
  { simpl. destruct (String.eqb_spec s ""); [contradiction | reflexivity]. }
  split.
  - intros decoded Hjson. exists (dict_set entries "properties" decoded).
    split; [| split].
    + unfold deserialize_properties. simpl as_dict. cbv iota zeta beta.
      rewrite Hname, Hvalue, Htruthy, Hjson. reflexivity.
    + apply dict_get_set_same.
    + intros key Hkey. apply dict_get_set_other, Hkey.
  - intros e Hjson. unfold deserialize_properties. simpl as_dict. cbv iota zeta beta.
    rewrite Hname, Hvalue, Htruthy, Hjson. reflexivity.
Qed.

(** X2. The record is left as it is when the first alias that is a key
    of the record holds anything but a string that is not empty (an object
    already decoded, an empty string, a number): an alias further down the
    list is not looked at, even if it holds a JSON string. It is also left
    as it is when no alias is a key and nothing, or nothing but such a
    value, is stored under the empty key (the default name of the search). *)
Theorem deserialize_properties_leaves (entries : list (string * pyval))
    (earlier later : list string) (name : string) :
  (azure_properties_names = earlier ++ name :: later ->
   Forall (fun alias => dict_has entries alias = false) earlier ->
   dict_has entries name = true ->
   (forall s, dict_get entries name = Some (PStr s) -> s = "") ->
   deserialize_properties (PDict entries) = Ok entries)
  /\ (Forall (fun alias => dict_has entries alias = false) azure_properties_names ->
      (forall s, dict_get entries "" = Some (PStr s) -> s = "") ->
      deserialize_properties (PDict entries) = Ok entries).
Proof.
  assert (Hkeep : forall key,
             (forall s, dict_get entries key = Some (PStr s) -> s = "") ->
             first_properties_name entries = key ->
             deserialize_properties (PDict entries) = Ok entries).
  { intros key Hvalue Hkey. unfold deserialize_properties. simpl as_dict.
    cbv iota zeta beta. rewrite Hkey.
    destruct (dict_get entries key) as [[| | | s | |] |]; try reflexivity.
    rewrite (Hvalue s eq_refl). reflexivity. }
  split.
  - intros Hnames Hearlier Hname Hvalue.
    apply (Hkeep name Hvalue).
    apply (first_properties_name_found entries earlier later name Hnames Hearlier Hname).
  - intros Hnone Hvalue.
    apply (Hkeep "" Hvalue). apply first_properties_name_none, Hnone.
Qed.

(** ** Records that are not objects *)

Lemma process_record_not_object (record : pyval) (w : World) :
  as_dict record = Raise AttributeError ->
  process_record_guarded record w
  = (Ok tt, set_self_monitoring incr_parsing_errors w).
Proof.
  intros Hrecord.
  unfold process_record_guarded, try_except, process_record, bind, lift,
    deserialize_properties.
  rewrite Hrecord. reflexivity.
Qed.

(** X3. An item of [records] that is not a JSON object (a string, a
    number, a list, [null]) makes [deserialize_properties] raise
    [AttributeError], which the loop counts: a list of such items adds its
    length to [parsing_errors], appends nothing to the payload and changes
    nothing else. *)
Theorem non_object_records_are_counted (records : list pyval) (w : World) :
  Forall (fun record => as_dict record = Raise AttributeError) records ->
  exists w',
    for_each process_record_guarded records w = (Ok tt, w')
    /\ parsing_errors (self_monitoring w')
       = parsing_errors (self_monitoring w) + Z.of_nat (length records)
    /\ too_old_records (self_monitoring w') = too_old_records (self_monitoring w)
    /\ too_long_content_size (self_monitoring w')
       = too_long_content_size (self_monitoring w)
    /\ dt_payload w' = dt_payload w
    /\ clock_reads w' = clock_reads w
    /\ calls w' = calls w.
Proof.
  intros Hrecords. revert w.
  induction Hrecords as [| record rest Hrecord _ IH]; intros w.
  - exists w. simpl. repeat split. lia.
  - destruct (IH (set_self_monitoring incr_parsing_errors w))
      as (w' & Hrun & Hpe & Hold & Hlong & Hpayload & Hclock & Hcalls).
    exists w'. simpl for_each. unfold bind.
    rewrite (process_record_not_object record w Hrecord).
    split; [exact Hrun |]. simpl in *.
    repeat split; try assumption. lia.
Qed.

(** ** The sanitization step, key by key *)

Lemma sanitize_content_inversion (parsed_record : gmap string pyval)
    (r : result (gmap string pyval)) (w w' : World) :
  sanitize_content parsed_record w = (r, w') ->
  match parsed_record !! "content" with
  | None => r = Ok parsed_record /\ w' = w
  | Some content =>
      if truthy content then
        match (match content with PStr s => Ok s | _ => json_dumps content end) with
        | Raise e => r = Raise e /\ w' = w
        | Ok serialized =>
            if len serialized >? content_length_limit then
              r = Ok (<["content" :=
                         PStr (String.append
                                 (py_slice_to serialized
                                    (content_length_limit
                                     - len DYNATRACE_LOG_INGEST_CONTENT_MARK_TRIMMED))
                                 DYNATRACE_LOG_INGEST_CONTENT_MARK_TRIMMED)]>
                        (if is_str content then parsed_record
                         else <["content" := PStr serialized]> parsed_record))
              /\ w' = set_self_monitoring
                        (append_too_long_content_size (len serialized)) w
            else
              r = Ok (if is_str content then parsed_record
                      else <["content" := PStr serialized]> parsed_record)
              /\ w' = w
        end
      else r = Ok parsed_record /\ w' = w
  end.
Proof.
  unfold sanitize_content. intros H.
  destruct (parsed_record !! "content") as [content |].
  - destruct (truthy content).
    + run_in H.
      destruct (match content with PStr s => Ok s | _ => json_dumps content end)
        as [serialized | e].
      * destruct (len serialized >? content_length_limit);
          injection H as <- <-; split; reflexivity.
      * injection H as <- <-; split; reflexivity.
    + injection H as <- <-; split; reflexivity.
  - injection H as <- <-; split; reflexivity.
Qed.

(** The content block only writes under ["content"], and only when the key
    is there. *)
Lemma sanitize_content_frame (parsed_record sanitized : gmap string pyval) (w w' : World) :
  sanitize_content parsed_record w = (Ok sanitized, w') ->
  (forall key, key <> "content" -> sanitized !! key = parsed_record !! key)
  /\ (parsed_record !! "content" = None -> sanitized !! "content" = None)
  /\ (is_Some (parsed_record !! "content") -> is_Some (sanitized !! "content"))
  /\ (forall value, parsed_record !! "content" = Some value -> truthy value = false ->
                    sanitized !! "content" = Some value).
Proof.
  intros H. apply sanitize_content_inversion in H.
  destruct (parsed_record !! "content") as [content |] eqn:Hc.
  - destruct (truthy content) eqn:Ht.
    + destruct (match content with PStr s => Ok s | _ => json_dumps content end)
        as [serialized | e]; [| destruct H; discriminate].
      destruct (len serialized >? content_length_limit);
        destruct H as [Hr _]; injection Hr as ->.
      * repeat split.
        -- intros key Hkey. rewrite lookup_insert_ne by congruence.
           destruct (is_str content); [reflexivity |].
           rewrite lookup_insert_ne by congruence. reflexivity.
        -- discriminate.
        -- intros _. rewrite lookup_insert_eq. eauto.
        -- intros value Hv Hf. congruence.
      * repeat split.
        -- intros key Hkey. destruct (is_str content); [reflexivity |].
           rewrite lookup_insert_ne by congruence. reflexivity.
        -- discriminate.
        -- intros _. destruct (is_str content); [rewrite Hc; eauto |].
           rewrite lookup_insert_eq. eauto.
        -- intros value Hv Hf. congruence.
    + destruct H as [Hr _]; injection Hr as ->.
      repeat split; try congruence; eauto.
  - destruct H as [Hr _]; injection Hr as ->.
    repeat split; try congruence; eauto.
Qed.

Lemma exempt_attribute_content (key : string) :
  exempt_attribute key = false -> key <> "content".
Proof. intros H ->. rewrite content_is_exempt in H. discriminate. Qed.

(** X4. What the sanitization step does to the attributes. A key that is
    not in the record is not added. Under [severity] and [timestamp], and
    under any key whose value is false in a condition (an empty string, 0,
    [None], an empty list), the value is left as it is, not even turned into
    a string. Under any other key but [content] the value is replaced by the
    string of the value cut by the slice [[:attribute_value_length_limit]]. *)
Theorem sanitize_attribute_values (parsed_record sanitized : gmap string pyval)
    (w w' : World) :
  sanitize parsed_record w = (Ok sanitized, w') ->
  (forall key, parsed_record !! key = None -> sanitized !! key = None)
  /\ (forall key value,
        parsed_record !! key = Some value ->
        key = "severity" \/ key = "timestamp" \/ truthy value = false ->
        sanitized !! key = Some value)
  /\ (forall key value,
        parsed_record !! key = Some value ->
        exempt_attribute key = false ->
        truthy value = true ->
        sanitized !! key
        = Some (PStr (py_slice_to (string_attribute_value value)
                                  attribute_value_length_limit))).
Proof.
  unfold sanitize. intros H.
  destruct (sanitize_content_frame _ _ _ _ H) as (Hother & Hnone & _ & Hfalsy).
  assert (Hattr : forall key,
             sanitize_attributes parsed_record !! key
             = sanitized_value key <$> parsed_record !! key)
    by apply sanitize_attributes_lookup.
  split; [| split].
  - intros key Hkey. destruct (decide (key = "content")) as [-> | Hne].
    + apply Hnone. rewrite Hattr, Hkey. reflexivity.
    + rewrite (Hother key Hne), Hattr, Hkey. reflexivity.
  - intros key value Hkey Hcase.
    assert (Hsame : sanitize_attributes parsed_record !! key = Some value).
    { rewrite Hattr, Hkey. simpl. f_equal. unfold sanitized_value.
      destruct Hcase as [-> | [-> | Hf]]; [reflexivity | reflexivity |].
      rewrite Hf, andb_false_r. reflexivity. }
    destruct (decide (key = "content")) as [-> | Hne].
    + destruct Hcase as [Hk | [Hk | Hf]]; [discriminate | discriminate |].
      apply (Hfalsy value Hsame Hf).
    + rewrite (Hother key Hne). exact Hsame.
  - intros key value Hkey Hexempt Ht.
    rewrite (Hother key (exempt_attribute_content key Hexempt)), Hattr, Hkey.
    simpl. unfold sanitized_value. rewrite Hexempt, Ht. reflexivity.
Qed.

(** X5. The sanitization step keeps the set of keys of the record: it
    neither adds a key (not even [content]) nor drops one. *)
Theorem sanitize_keeps_keys (parsed_record sanitized : gmap string pyval) (w w' : World) :
  sanitize parsed_record w = (Ok sanitized, w') ->
  dom sanitized = dom parsed_record.
Proof.
  unfold sanitize. intros H.
  destruct (sanitize_content_frame _ _ _ _ H) as (Hother & Hnone & Hsome & _).
  apply set_eq. intros key. rewrite !elem_of_dom.
  assert (Hattr : is_Some (sanitize_attributes parsed_record !! key)
                  <-> is_Some (parsed_record !! key)).
  { rewrite sanitize_attributes_lookup. apply fmap_is_Some. }
  rewrite <- Hattr.
  destruct (decide (key = "content")) as [-> | Hne].
  - split; [| apply Hsome].
    intros Hs. destruct (sanitize_attributes parsed_record !! "content") eqn:Hc; [eauto |].
    rewrite (Hnone eq_refl) in Hs. exact Hs.
  - rewrite (Hother key Hne). reflexivity.
Qed.

Lemma sanitize_attributes_bounded (parsed_record sanitized : gmap string pyval)
    (w w' : World) :
  0 <= attribute_value_length_limit ->
  sanitize parsed_record w = (Ok sanitized, w') ->
  forall key value,
    sanitized !! key = Some value ->
    exempt_attribute key = false ->
    truthy value = false
    \/ exists s, value = PStr s /\ len s <= attribute_value_length_limit.
Proof.
  intros Hattr H key value Hkey Hexempt. unfold sanitize in H.
  destruct (sanitize_content_frame _ _ _ _ H) as (Hother & _).
  rewrite (Hother key (exempt_attribute_content key Hexempt)) in Hkey.
  rewrite sanitize_attributes_lookup in Hkey.
  destruct (parsed_record !! key) as [original |]; [| discriminate].
  simpl in Hkey. injection Hkey as <-. unfold sanitized_value. rewrite Hexempt. simpl.
  destruct (truthy original) eqn:Ht; [| left; exact Ht].
  right. eexists. split; [reflexivity |].
  rewrite py_slice_to_len by assumption. lia.
Qed.

Lemma sanitize_content_bounded (parsed_record sanitized : gmap string pyval)
    (w w' : World) :
  len DYNATRACE_LOG_INGEST_CONTENT_MARK_TRIMMED <= content_length_limit ->
  sanitize parsed_record w = (Ok sanitized, w') ->
  forall value,
    sanitized !! "content" = Some value ->
    truthy value = false
    \/ exists s, value = PStr s /\ len s <= content_length_limit.
Proof.
  intros Hroom H value Hvalue. unfold sanitize in H.
  destruct (sanitize_content_settles _ _ _ _ Hroom H) as [_ Hcontent].
  rewrite Hvalue in Hcontent. exact Hcontent.
Qed.

(** X6. With limits that are lengths, the record that leaves the
    sanitization step is within the limits: every attribute outside
    [content], [severity] and [timestamp] is false in a condition or a
    string of at most [attribute_value_length_limit] characters, and the
    content is false in a condition or a string of at most
    [content_length_limit] characters. *)
Theorem sanitized_within_limits (parsed_record sanitized : gmap string pyval)
    (w w' : World) :
  0 <= attribute_value_length_limit ->
  len DYNATRACE_LOG_INGEST_CONTENT_MARK_TRIMMED <= content_length_limit ->
  sanitize parsed_record w = (Ok sanitized, w') ->
  within_limits sanitized.
Proof.
  intros Hattr Hroom H. split.
  - apply (sanitize_attributes_bounded parsed_record sanitized w w' Hattr H).
  - apply (sanitize_content_bounded parsed_record sanitized w w' Hroom H).
Qed.

(** ** Content: a limit below the length of the marker, and values that
    are not strings *)

Lemma py_slice_to_negative (s : string) (n : Z) :
  n < 0 ->
  py_slice_to s n = String.substring 0 (Z.to_nat (len s + n)) s
  /\ len (py_slice_to s n) = Z.max 0 (len s + n).
Proof.
  intros Hn. unfold py_slice_to.
  replace (n <? 0) with true by (symmetry; apply Z.ltb_lt; exact Hn).
  assert (Hnat : Z.to_nat (Z.max 0 (len s + n)) = Z.to_nat (len s + n)) by lia.
  rewrite Hnat. split; [reflexivity |].
  unfold len. rewrite substring_0_length. unfold len in *. lia.
Qed.

(** X7. When [content_length_limit] is below the length of the marker,
    the bound of the slice is negative and counts from the end: a string
    content longer than the limit loses its last
    [len("[TRUNCATED]") - content_length_limit] characters (all of them when
    it has fewer) and gets the marker, so that the content that comes out is
    longer than the limit. Its length before the cut is still recorded. *)
Theorem truncation_below_marker_length (parsed_record : gmap string pyval)
    (content : string) (w : World) :
  parsed_record !! "content" = Some (PStr content) ->
  content <> "" ->
  content_length_limit < len DYNATRACE_LOG_INGEST_CONTENT_MARK_TRIMMED ->
  len content > content_length_limit ->
  exists sanitized,
    let kept := String.substring 0
                  (Z.to_nat (len content
                             - (len DYNATRACE_LOG_INGEST_CONTENT_MARK_TRIMMED
                                - content_length_limit)))
                  content in
    sanitize parsed_record w
    = (Ok sanitized,
       set_self_monitoring (append_too_long_content_size (len content)) w)
    /\ sanitized !! "content"
       = Some (PStr (String.append kept DYNATRACE_LOG_INGEST_CONTENT_MARK_TRIMMED))
    /\ len kept
       = Z.max 0 (len content
                  - (len DYNATRACE_LOG_INGEST_CONTENT_MARK_TRIMMED
                     - content_length_limit))
    /\ len (String.append kept DYNATRACE_LOG_INGEST_CONTENT_MARK_TRIMMED)
       > content_length_limit.
Proof.
  intros Hc Hne Hlimit Hlong.
  assert (Hattr : sanitize_attributes parsed_record !! "content" = Some (PStr content)).
  { rewrite sanitize_attributes_lookup, Hc. simpl.
    rewrite sanitized_value_exempt by apply content_is_exempt. reflexivity. }
  unfold sanitize. rewrite (sanitize_content_on_string _ _ w Hattr).
  rewrite (truthy_PStr content Hne).
  replace (len content >? content_length_limit) with true
    by (symmetry; apply Z.gtb_lt; lia).
  simpl andb. cbv iota.
  destruct (py_slice_to_negative content
              (content_length_limit - len DYNATRACE_LOG_INGEST_CONTENT_MARK_TRIMMED))
    as [Hslice Hlen]; [lia |].
  replace (len content
           - (len DYNATRACE_LOG_INGEST_CONTENT_MARK_TRIMMED - content_length_limit))
    with (len content
          + (content_length_limit - len DYNATRACE_LOG_INGEST_CONTENT_MARK_TRIMMED))
    by lia.
  eexists. cbv zeta. rewrite <- Hslice.
  split; [reflexivity |]. split; [apply lookup_insert_eq |].
  split; [exact Hlen |].
  rewrite len_append, Hlen. lia.
Qed.

(** X8. A content that is true in a condition and is not a string (an
    object, a list, a number) is replaced by its [json.dumps]; within the
    limit, the serialization is the new content and nothing is recorded.
    When [json.dumps] raises, the step raises the same exception and nothing
    is recorded either. *)
Theorem non_string_content_is_serialized (parsed_record : gmap string pyval)
    (content : pyval) (w : World) :
  parsed_record !! "content" = Some content ->
  is_str content = false ->
  truthy content = true ->
  (forall serialized,
      json_dumps content = Ok serialized ->
      len serialized <= content_length_limit ->
      exists sanitized,
        sanitize parsed_record w = (Ok sanitized, w)
        /\ sanitized !! "content" = Some (PStr serialized))
  /\ (forall e, json_dumps content = Raise e ->
                sanitize parsed_record w = (Raise e, w)).
Proof.
  intros Hc Hstr Ht.
  assert (Hattr : sanitize_attributes parsed_record !! "content" = Some content).
  { rewrite sanitize_attributes_lookup, Hc. simpl.
    rewrite sanitized_value_exempt by apply content_is_exempt. reflexivity. }
  assert (Hser : (match content with PStr s => Ok s | _ => json_dumps content end)
                 = json_dumps content).
  { destruct content; try reflexivity. discriminate Hstr. }
  unfold sanitize, sanitize_content. rewrite Hattr, Ht, Hser, Hstr.
  split.
  - intros serialized Hdumps Hshort. run. rewrite Hdumps.
    replace (len serialized >? content_length_limit) with false
      by (symmetry; rewrite Z.gtb_ltb; apply Z.ltb_ge; lia).
    eexists. split; [reflexivity | apply lookup_insert_eq].
  - intros e Hdumps. run. rewrite Hdumps. reflexivity.
Qed.

(** ** The age guard as a whole *)

(** X9. [is_too_old] never raises, whatever the timestamp is. It touches
    neither the payload nor the outside calls nor the recorded sizes. When
    it answers [True] it has added one to [too_old_records] and nothing to
    [parsing_errors]; when it answers [False], [too_old_records] is as
    before and [parsing_errors] has grown by one at most. *)
Theorem is_too_old_never_raises (timestamp : pyval) (log_part : string) (w : World) :
  exists (answer : bool) (w' : World),
    is_too_old timestamp log_part w = (Ok answer, w')
    /\ dt_payload w' = dt_payload w
    /\ calls w' = calls w
    /\ too_long_content_size (self_monitoring w')
       = too_long_content_size (self_monitoring w)
    /\ (answer = true ->
        too_old_records (self_monitoring w') = too_old_records (self_monitoring w) + 1
        /\ parsing_errors (self_monitoring w') = parsing_errors (self_monitoring w))
    /\ (answer = false ->
        too_old_records (self_monitoring w') = too_old_records (self_monitoring w)
        /\ (parsing_errors (self_monitoring w') = parsing_errors (self_monitoring w)
            \/ parsing_errors (self_monitoring w')
               = parsing_errors (self_monitoring w) + 1)).
Proof.
  destruct (is_too_old_cases timestamp log_part w) as [E | [E | [E | [E | E]]]];
    rewrite E; eexists _, _; (split; [reflexivity |]); simpl;
    repeat split; try discriminate; auto.
Qed.

(** ** A category that is not a string *)

(** X10. [record.get("category", "").lower()] needs a string: when the
    record passes the drop filter and the metadata engine, and its
    [category] is present but is not a string ([null], a number),
    [parse_record] raises [AttributeError] with nothing changed, and the
    batch loop counts the record as one parsing error and appends nothing. *)
Theorem category_must_be_string (record : list (string * pyval))
    (with_severity partial enriched : gmap string pyval) (category : pyval) (w : World) :
  extract_severity record {[ "cloud.provider" := PStr "Azure" ]} = Ok with_severity ->
  extract_resource_id record (extract_cloud_log_forwarder with_severity) = Ok partial ->
  should_filter_out_record partial = Ok false ->
  metadata_engine_apply record partial = Ok enriched ->
  dict_get record "category" = Some category ->
  is_str category = false ->
  parse_record record w = (Raise AttributeError, w)
  /\ (forall raw : pyval,
        deserialize_properties raw = Ok record ->
        process_record_guarded raw w
        = (Ok tt, set_self_monitoring incr_parsing_errors w)).
Proof.
  intros Hsev Hres Hkeep Hmeta Hcat Hstr.
  assert (Hparse : parse_record record w = (Raise AttributeError, w)).
  { unfold parse_record. run. rewrite Hsev, Hres, Hkeep, Hmeta.
    unfold category_lower. rewrite Hcat.
    destruct category; try reflexivity. discriminate Hstr. }
  split; [exact Hparse |].
  intros raw Hraw.
  apply (process_record_guarded_on_raise raw AttributeError w w).
  unfold process_record, bind, lift at 1. rewrite Hraw, Hparse. reflexivity.
Qed.

(** ** Accounting of the loop over records *)

Lemma is_too_old_fields (timestamp : pyval) (log_part : string) (answer : bool)
    (w w' : World) :
  is_too_old timestamp log_part w = (Ok answer, w') ->
  dt_payload w' = dt_payload w
  /\ calls w' = calls w
  /\ too_long_content_size (self_monitoring w')
     = too_long_content_size (self_monitoring w)
  /\ processing_time (self_monitoring w') = processing_time (self_monitoring w)
  /\ (clock_reads w <= clock_reads w' <= clock_reads w + 1)%nat
  /\ (answer = true ->
      too_old_records (self_monitoring w') = too_old_records (self_monitoring w) + 1
      /\ parsing_errors (self_monitoring w') = parsing_errors (self_monitoring w))
  /\ (answer = false ->
      too_old_records (self_monitoring w') = too_old_records (self_monitoring w)
      /\ (parsing_errors (self_monitoring w') = parsing_errors (self_monitoring w)
          \/ parsing_errors (self_monitoring w')
             = parsing_errors (self_monitoring w) + 1)).
Proof.
  intros H.
  destruct (is_too_old_cases timestamp log_part w) as [E | [E | [E | [E | E]]]];
    rewrite E in H; injection H as <- <-; simpl;
    repeat split; try discriminate; auto; lia.
Qed.

Lemma sanitize_fields (parsed_record sanitized : gmap string pyval) (w w' : World) :
  sanitize parsed_record w = (Ok sanitized, w') ->
  dt_payload w' = dt_payload w
  /\ calls w' = calls w
  /\ clock_reads w' = clock_reads w
  /\ parsing_errors (self_monitoring w') = parsing_errors (self_monitoring w)
  /\ too_old_records (self_monitoring w') = too_old_records (self_monitoring w)
  /\ processing_time (self_monitoring w') = processing_time (self_monitoring w)
  /\ exists sizes,
       too_long_content_size (self_monitoring w')
       = too_long_content_size (self_monitoring w) ++ sizes
       /\ (length sizes <= 1)%nat.
Proof.
  unfold sanitize. intros H. apply sanitize_content_inversion in H.
  assert (Hsame : w' = w ->
            dt_payload w' = dt_payload w
            /\ calls w' = calls w
            /\ clock_reads w' = clock_reads w
            /\ parsing_errors (self_monitoring w') = parsing_errors (self_monitoring w)
            /\ too_old_records (self_monitoring w') = too_old_records (self_monitoring w)
            /\ processing_time (self_monitoring w') = processing_time (self_monitoring w)
            /\ exists sizes,
                 too_long_content_size (self_monitoring w')
                 = too_long_content_size (self_monitoring w) ++ sizes
                 /\ (length sizes <= 1)%nat).
  { intros ->. repeat split. exists []. rewrite app_nil_r. split; [reflexivity | simpl; lia]. }
  destruct (sanitize_attributes parsed_record !! "content") as [content |];
    [| apply Hsame, H].
  destruct (truthy content); [| apply Hsame, H].
  destruct (match content with PStr s => Ok s | _ => json_dumps content end)
    as [serialized | e]; [| apply Hsame, H].
  destruct (len serialized >? content_length_limit); [| apply Hsame, H].
  destruct H as [_ ->]. simpl. repeat split.
  exists [len serialized]. split; [reflexivity | simpl; lia].
Qed.

Lemma parse_record_fields (record : list (string * pyval))
    (parsed : option (gmap string pyval)) (w w' : World) :
  parse_record record w = (Ok parsed, w') ->
  (parsed = None /\ w' = w)
  \/ exists before sanitized,
       parsed = Some sanitized /\ sanitize before w = (Ok sanitized, w').
Proof.
  unfold parse_record. intros H. unfold bind at 1 2 3, lift in H.
  destruct (extract_severity _ _); [| discriminate].
  destruct (extract_resource_id _ _); [| discriminate].
  destruct (should_filter_out_record _) as [[|] |]; [| | discriminate].
  - injection H as <- <-. left. split; reflexivity.
  - unfold bind at 1 2 3 in H.
    destruct (metadata_engine_apply _ _); [| discriminate].
    destruct (category_lower _); [| discriminate].
    destruct (infer_monitored_entity_id _ _) as [enriched |]; [| discriminate].
    unfold bind, ret in H.
    destruct (sanitize enriched w) as [[sanitized | e] w1] eqn:Hs; [| discriminate].
    injection H as <- <-. right. exists enriched, sanitized. split; [reflexivity | exact Hs].
Qed.

Lemma batch_step_refl (P : gmap string pyval -> Prop) (n : nat) (w : World) :
  batch_step P n w w.
Proof.
  unfold batch_step. repeat split; try lia.
  exists [], []. rewrite !app_nil_r. simpl. repeat split; try lia. constructor.
Qed.

Lemma batch_step_trans (P : gmap string pyval -> Prop) (n m : nat) (w1 w2 w3 : World) :
  batch_step P n w1 w2 -> batch_step P m w2 w3 -> batch_step P (n + m) w1 w3.
Proof.
  intros (Hc1 & Ht1 & Hk1 & out1 & sizes1 & Hp1 & HP1 & Hl1 & Hn1 & He1 & Ho1 & Ha1 & Hb1)
         (Hc2 & Ht2 & Hk2 & out2 & sizes2 & Hp2 & HP2 & Hl2 & Hn2 & He2 & Ho2 & Ha2 & Hb2).
  unfold batch_step. split; [congruence |]. split; [congruence |]. split; [lia |].
  exists (out1 ++ out2), (sizes1 ++ sizes2).
  split; [rewrite Hp2, Hp1, app_assoc; reflexivity |].
  split; [apply Forall_app; split; assumption |].
  split; [rewrite Hl2, Hl1, app_assoc; reflexivity |].
  rewrite !length_app. repeat split; lia.
Qed.

(** One record: the guarded call returns, and moves the world by one step. *)
Lemma process_record_guarded_step (P : gmap string pyval -> Prop)
    (record : pyval) (w : World) :
  (forall before sanitized w1 w2,
      sanitize before w1 = (Ok sanitized, w2) -> sanitized <> ∅ -> P sanitized) ->
  exists w', process_record_guarded record w = (Ok tt, w') /\ batch_step P 1 w w'.
Proof.
  intros HP.
  destruct (process_record record w) as [[[] | e] w'] eqn:Hrun.
  - exists w'. split; [unfold process_record_guarded, try_except; rewrite Hrun; reflexivity |].
    unfold process_record in Hrun. unfold bind at 1 2, lift in Hrun.
    destruct (deserialize_properties record) as [entries | e0]; [| discriminate].
    destruct (parse_record entries w) as [[parsed | e1] w1] eqn:Hparse; [| discriminate].
    destruct (parse_record_fields _ _ _ _ Hparse)
      as [[-> ->] | (before & sanitized & -> & Hsan)].
    + injection Hrun as <-. apply batch_step_refl.
    + destruct (sanitize_fields _ _ _ _ Hsan)
        as (Hp1 & Hc1 & Hk1 & He1 & Ho1 & Ht1 & sizes & Hl1 & Hn1).
      destruct (bool_decide (sanitized = ∅)) eqn:Hempty.
      * injection Hrun as <-. unfold batch_step.
        split; [congruence |]. split; [congruence |]. split; [lia |].
        exists [], sizes. rewrite app_nil_r. simpl.
        repeat split; try assumption; try constructor; lia.
      * apply bool_decide_eq_false in Hempty.
        unfold bind, ret, modify in Hrun.
        destruct (is_too_old (default PNone (sanitized !! "timestamp")) "record" w1)
          as [[answer | e2] w2] eqn:Hguard; [| discriminate].
        destruct (is_too_old_fields _ _ _ _ _ Hguard)
          as (Hp2 & Hc2 & Hl2 & Ht2 & Hk2 & Htrue & Hfalse).
        destruct answer; injection Hrun as <-.
        -- destruct (Htrue eq_refl) as [Ho2 He2]. unfold batch_step.
           split; [congruence |]. split; [congruence |]. split; [lia |].
           exists [], sizes. rewrite app_nil_r. simpl.
           split; [congruence |]. split; [constructor |].
           split; [congruence |]. repeat split; lia.
        -- destruct (Hfalse eq_refl) as [Ho2 He2]. unfold batch_step. simpl.
           split; [congruence |]. split; [congruence |]. split; [lia |].
           exists [sanitized], sizes. simpl.
           split; [congruence |].
           split; [constructor; [eapply HP; eassumption | constructor] |].
           split; [congruence |]. repeat split; lia.
  - exists (set_self_monitoring incr_parsing_errors w).
    split; [apply (process_record_guarded_on_raise record e w w' Hrun) |].
    unfold batch_step. simpl. split; [reflexivity |]. split; [reflexivity |].
    split; [lia |]. exists [], []. rewrite !app_nil_r. simpl.
    repeat split; try lia. constructor.
Qed.

Lemma for_each_guarded_step (P : gmap string pyval -> Prop)
    (records : list pyval) (w : World) :
  (forall before sanitized w1 w2,
      sanitize before w1 = (Ok sanitized, w2) -> sanitized <> ∅ -> P sanitized) ->
  exists w',
    for_each process_record_guarded records w = (Ok tt, w')
    /\ batch_step P (length records) w w'.
Proof.
  intros HP. revert w. induction records as [| record rest IH]; intros w.
  - exists w. split; [reflexivity | apply batch_step_refl].
  - destruct (process_record_guarded_step P record w HP) as (w1 & Hrun1 & Hstep1).
    destruct (IH w1) as (w' & Hrun & Hstep).
    exists w'. split.
    + simpl. unfold bind. rewrite Hrun1. exact Hrun.
    + apply (batch_step_trans P 1 (length rest) w w1 w'); assumption.
Qed.

(** X11. The loop over the records of an event never raises and accounts
    for every record: over [n] records it appends at most [n] records at the
    end of the payload, none of them an empty dictionary, and leaves what
    the payload held in place; the records appended and the records counted
    as too old are together at most [n], and so are the parsing errors and
    the records counted as too old; no counter decreases, recorded sizes are
    only appended, and no outside call is made. *)
Theorem record_loop_accounting (records : list pyval) (w : World) :
  exists w',
    for_each process_record_guarded records w = (Ok tt, w')
    /\ batch_step (fun parsed_record => parsed_record <> ∅) (length records) w w'.
Proof.
  apply for_each_guarded_step. intros before sanitized w1 w2 _ Hne. exact Hne.
Qed.

(** ** The loop over events *)

Lemma events_step_refl (P : gmap string pyval -> Prop) (events : list EventHubEvent)
    (w : World) :
  events_step P events w w.
Proof.
  unfold events_step. split; [exists []; rewrite app_nil_r; split; [reflexivity | constructor] |].
  split; [exists []; rewrite app_nil_r; split; [reflexivity | apply sublist_nil_l] |].
  split; [lia |]. split; [lia |].
  split; [exists []; rewrite app_nil_r; reflexivity | reflexivity].
Qed.

Lemma events_step_trans (P : gmap string pyval -> Prop)
    (events1 events2 : list EventHubEvent) (w1 w2 w3 : World) :
  events_step P events1 w1 w2 ->
  events_step P events2 w2 w3 ->
  events_step P (events1 ++ events2) w1 w3.
Proof.
  intros ((out1 & Hp1 & HP1) & (ex1 & Hc1 & Hs1) & He1 & Ho1 & (sz1 & Hl1) & Ht1)
         ((out2 & Hp2 & HP2) & (ex2 & Hc2 & Hs2) & He2 & Ho2 & (sz2 & Hl2) & Ht2).
  unfold events_step.
  split; [exists (out1 ++ out2); split;
          [rewrite Hp2, Hp1, app_assoc; reflexivity | apply Forall_app; split; assumption] |].
  split; [exists (ex1 ++ ex2); split;
          [rewrite Hc2, Hc1, app_assoc; reflexivity
          | unfold decode_calls; rewrite map_app; apply sublist_app; assumption] |].
  split; [lia |]. split; [lia |].
  split; [exists (sz1 ++ sz2); rewrite Hl2, Hl1, app_assoc; reflexivity | congruence].
Qed.

Lemma batch_step_events_step (P : gmap string pyval -> Prop) (n : nat) (w w' : World) :
  batch_step P n w w' -> events_step P [] w w'.
Proof.
  intros (Hc & Ht & Hk & out & sizes & Hp & HP & Hl & Hn & He & Ho & Ha & Hb).
  unfold events_step.
  split; [exists out; split; assumption |].
  split; [exists []; rewrite app_nil_r; split; [exact Hc | apply sublist_nil_l] |].
  split; [lia |]. split; [lia |]. split; [exists sizes; exact Hl | exact Ht].
Qed.

Lemma guard_events_step (P : gmap string pyval -> Prop) (timestamp : pyval)
    (log_part : string) (answer : bool) (w w' : World) :
  is_too_old timestamp log_part w = (Ok answer, w') -> events_step P [] w w'.
Proof.
  intros H.
  destruct (is_too_old_fields _ _ _ _ _ H) as (Hp & Hc & Hl & Ht & Hk & Htrue & Hfalse).
  unfold events_step.
  split; [exists []; rewrite app_nil_r; split; [exact Hp | constructor] |].
  split; [exists []; rewrite app_nil_r; split; [exact Hc | apply sublist_nil_l] |].
  assert (Hcount : parsing_errors (self_monitoring w) <= parsing_errors (self_monitoring w')
                   /\ too_old_records (self_monitoring w)
                      <= too_old_records (self_monitoring w')).
  { destruct answer.
    - destruct (Htrue eq_refl). lia.
    - destruct (Hfalse eq_refl) as [? [? | ?]]; lia. }
  split; [apply Hcount |]. split; [apply Hcount |].
  split; [exists []; rewrite app_nil_r; exact Hl | exact Ht].
Qed.

Lemma decode_call_events_step (P : gmap string pyval -> Prop) (event : EventHubEvent)
    (w : World) :
  events_step P [event] w (with_decode_call (get_body event) w).
Proof.
  unfold events_step, with_decode_call. simpl.
  split; [exists []; rewrite app_nil_r; split; [reflexivity | constructor] |].
  split; [eexists; split; [reflexivity | reflexivity] |].
  split; [lia |]. split; [lia |].
  split; [exists []; rewrite app_nil_r; reflexivity | reflexivity].
Qed.

Lemma process_event_step (P : gmap string pyval -> Prop) (event : EventHubEvent)
    (r : result unit) (w w' : World) :
  (forall before sanitized w1 w2,
      sanitize before w1 = (Ok sanitized, w2) -> sanitized <> ∅ -> P sanitized) ->
  process_event event w = (r, w') ->
  events_step P [event] w w'.
Proof.
  intros HP Hrun. unfold process_event in Hrun. unfold bind at 1 in Hrun.
  destruct (is_too_old (event_timestamp event) "event" w) as [[answer | e] w1] eqn:Hguard.
  - pose proof (guard_events_step P _ _ _ _ _ Hguard) as Hstep1.
    destruct answer.
    + injection Hrun as _ <-.
      apply (events_step_trans P [] [event] w w1 w1 Hstep1), events_step_refl.
    + assert (Hstep2 : events_step P [event] w (with_decode_call (get_body event) w1)).
      { apply (events_step_trans P [] [event] w w1 _ Hstep1), decode_call_events_step. }
      fold (with_decode_call (get_body event) w1) in Hrun.
      unfold bind at 1, record_call, modify in Hrun.
      fold (with_decode_call (get_body event) w1) in Hrun.
      unfold bind at 1 2 3 4, lift in Hrun.
      destruct (bytes_decode_utf8 (get_body event)) as [text |];
        [| injection Hrun as _ <-; exact Hstep2].
      destruct (json_loads text) as [event_json |];
        [| injection Hrun as _ <-; exact Hstep2].
      destruct (as_dict event_json) as [entries |];
        [| injection Hrun as _ <-; exact Hstep2].
      destruct (py_iter _) as [items |];
        [| injection Hrun as _ <-; exact Hstep2].
      destruct (for_each_guarded_step P items (with_decode_call (get_body event) w1) HP)
        as (w2 & Hloop & Hbatch).
      rewrite Hloop in Hrun. injection Hrun as _ <-.
      change [event] with ([event] ++ []).
      apply (events_step_trans P [event] [] w _ w2 Hstep2).
      apply (batch_step_events_step P _ _ _ Hbatch).
  - destruct (is_too_old_returns (event_timestamp event) "event" w) as (a & w2 & E).
    rewrite E in Hguard. discriminate.
Qed.

Lemma for_each_event_step (P : gmap string pyval -> Prop) (events : list EventHubEvent)
    (r : result unit) (w w' : World) :
  (forall before sanitized w1 w2,
      sanitize before w1 = (Ok sanitized, w2) -> sanitized <> ∅ -> P sanitized) ->
  for_each process_event events w = (r, w') ->
  events_step P events w w'.
Proof.
  intros HP. revert w. induction events as [| event rest IH]; intros w Hrun.
  - injection Hrun as _ <-. apply events_step_refl.
  - simpl in Hrun. unfold bind in Hrun.
    destruct (process_event event w) as [[[] | e] w1] eqn:Hevent.
    + apply (events_step_trans P [event] rest w w1 w').
      * apply (process_event_step P event _ w w1 HP Hevent).
      * apply IH, Hrun.
    + injection Hrun as _ <-.
      apply (events_step_trans P [event] rest w w1 w1).
      * apply (process_event_step P event _ w w1 HP Hevent).
      * apply events_step_refl.
Qed.

(** X12. Whether it returns or raises, the loop over the events only
    appends to the payload, and only dictionaries that are not empty; the
    only outside calls it makes decode bodies of the events, in the order of
    the events and once per event at most (so it never sends and never
    flushes); [parsing_errors] and [too_old_records] do not decrease,
    recorded sizes are only appended, and [processing_time] is not
    touched. *)
Theorem event_loop_trace (events : list EventHubEvent) (w : World) :
  events_step (fun parsed_record => parsed_record <> ∅) events w
    (snd (for_each process_event events w)).
Proof.
  destruct (for_each process_event events w) as [r w'] eqn:Hrun. simpl.
  apply (for_each_event_step _ events r w w'); [| exact Hrun].
  intros before sanitized w1 w2 _ Hne. exact Hne.
Qed.

(** X13. The shapes a decoded body can have. For an event that is not
    too old and whose body is valid UTF-8: a JSON object without a
    [records] key is an event with no record, and the event returns with
    nothing done but the decoding; a JSON value that is not an object makes
    [.get] raise [AttributeError], and a [records] value that cannot be
    iterated ([null], a number, a boolean) makes the [for] raise
    [TypeError]; both leave the loop over the events. *)
Theorem event_body_shapes (event : EventHubEvent) (text : string) (w w1 : World) :
  is_too_old (event_timestamp event) "event" w = (Ok false, w1) ->
  bytes_decode_utf8 (get_body event) = Ok text ->
  (forall entries,
      json_loads text = Ok (PDict entries) ->
      dict_get entries "records" = None ->
      process_event event w = (Ok tt, with_decode_call (get_body event) w1))
  /\ (forall event_json,
        json_loads text = Ok event_json ->
        as_dict event_json = Raise AttributeError ->
        process_event event w
        = (Raise AttributeError, with_decode_call (get_body event) w1))
  /\ (forall entries records,
        json_loads text = Ok (PDict entries) ->
        dict_get entries "records" = Some records ->
        py_iter records = Raise TypeError ->
        process_event event w
        = (Raise TypeError, with_decode_call (get_body event) w1)).
Proof.
  intros Hguard Htext.
  split; [| split].
  - intros entries Hjson Hrecords. unfold process_event. unfold bind at 1.
    rewrite Hguard. run. rewrite Htext, Hjson. simpl. rewrite Hrecords. reflexivity.
  - intros event_json Hjson Hobject. unfold process_event. unfold bind at 1.
    rewrite Hguard. run. rewrite Htext, Hjson, Hobject. reflexivity.
  - intros entries records Hjson Hrecords Hiter. unfold process_event. unfold bind at 1.
    rewrite Hguard. run. rewrite Htext, Hjson. simpl. rewrite Hrecords. simpl.
    rewrite Hiter. reflexivity.
Qed.

(** ** The invocation *)

Lemma process_logs_try_missing (environ : gmap string string)
    (events : list EventHubEvent) (w : World) :
  environ !! DYNATRACE_URL = None \/ environ !! DYNATRACE_ACCESS_KEY = None ->
  process_logs_try environ events w
  = (Raise (ConfigurationError
              "Please set DYNATRACE_URL and DYNATRACE_ACCESS_KEY in application settings"),
     w).
Proof.
  intros Hmissing. unfold process_logs_try.
  assert (Hcheck : negb (bool_decide (is_Some (environ !! DYNATRACE_URL)))
                   || negb (bool_decide (is_Some (environ !! DYNATRACE_ACCESS_KEY)))
                   = true).
  { destruct Hmissing as [H | H]; rewrite H.
    - rewrite bool_decide_eq_false_2; [reflexivity | intros [v Hv]; discriminate].
    - rewrite (bool_decide_eq_false_2 (is_Some None));
        [apply orb_true_r | intros [v Hv]; discriminate]. }
  rewrite Hcheck. reflexivity.
Qed.

Lemma process_logs_try_returned (environ : gmap string string)
    (events : list EventHubEvent) (url key : string) (w w1 : World) :
  environ !! DYNATRACE_URL = Some url ->
  environ !! DYNATRACE_ACCESS_KEY = Some key ->
  for_each process_event events (loop_start w) = (Ok tt, w1) ->
  process_logs_try environ events w
  = match dt_payload w1 with
    | [] => (Ok tt, timed w w1)
    | _ :: _ => call_send_logs url key (dt_payload w1) (timed w w1)
    end.
Proof.
  intros Hurl Hkey Hloop. unfold process_logs_try.
  rewrite !bool_decide_eq_true_2 by (rewrite ?Hurl, ?Hkey; eauto). simpl.
  unfold bind at 1 2 3, modify, time_perf_counter. fold (loop_start w).
  rewrite Hloop. run. unfold environ_item. rewrite Hurl, Hkey.
  fold (timed w w1).
  destruct (dt_payload w1); reflexivity.
Qed.

(** X14. When [DYNATRACE_URL] or [DYNATRACE_ACCESS_KEY] is not set, the
    invocation raises before it touches anything: no event is looked at, no
    clock is read, the payload is not emptied and no counter moves; the
    self-monitoring flush still runs, on the world as it was. *)
Theorem missing_configuration_fails_first (environ : gmap string string)
    (events : list EventHubEvent) (w : World) :
  environ !! DYNATRACE_URL = None \/ environ !! DYNATRACE_ACCESS_KEY = None ->
  process_logs environ events w
  = (Raise (ConfigurationError
              "Please set DYNATRACE_URL and DYNATRACE_ACCESS_KEY in application settings"),
     flushed environ w).
Proof.
  intros Hmissing.
  rewrite process_logs_run, (process_logs_try_missing environ events w Hmissing).
  reflexivity.
Qed.

(** X15. When the loop over the events returns with an empty payload
    (an empty batch of events in particular), [send_logs] is not called:
    the invocation returns normally, having stored the processing time and
    run the flush, and the only outside calls besides the flush are the
    decodings made by the loop. *)
Theorem empty_payload_sends_nothing (environ : gmap string string)
    (events : list EventHubEvent) (url key : string) (w w1 : World) :
  environ !! DYNATRACE_URL = Some url ->
  environ !! DYNATRACE_ACCESS_KEY = Some key ->
  for_each process_event events (loop_start w) = (Ok tt, w1) ->
  dt_payload w1 = [] ->
  process_logs environ events w = (Ok tt, flushed environ (timed w w1))
  /\ calls (flushed environ (timed w w1))
     = calls w1 ++ flush_calls environ (timed w w1)
  /\ exists decoded,
       calls w1 = calls w ++ decoded /\ sublist decoded (decode_calls events).
Proof.
  intros Hurl Hkey Hloop Hempty.
  split; [| split].
  - rewrite process_logs_run.
    rewrite (process_logs_try_returned environ events url key w w1 Hurl Hkey Hloop).
    rewrite Hempty. reflexivity.
  - reflexivity.
  - assert (Htrace : events_step (fun parsed_record => parsed_record <> ∅) events
                       (loop_start w) w1).
    { apply (for_each_event_step _ events (Ok tt) (loop_start w) w1); [| exact Hloop].
      intros before sanitized w2 w3 _ Hne. exact Hne. }
    destruct Htrace as (_ & Hcalls & _). exact Hcalls.
Qed.

(** X16. When the loop over the events returns with a payload that is
    not empty, [send_logs] is called once, with the URL and the access key
    of the environment, the whole payload and the monitoring object in
    which the processing time has just been stored. The outcome of the
    invocation is the outcome of [send_logs]: when it raises, the invocation
    raises the same exception; either way the flush runs after the send, on
    the monitoring object as [send_logs] left it. *)
Theorem payload_is_sent_once (environ : gmap string string)
    (events : list EventHubEvent) (url key : string) (w w1 : World) :
  environ !! DYNATRACE_URL = Some url ->
  environ !! DYNATRACE_ACCESS_KEY = Some key ->
  for_each process_event events (loop_start w) = (Ok tt, w1) ->
  dt_payload w1 <> [] ->
  let sent := send_logs url key (dt_payload w1) (self_monitoring (timed w w1)) in
  process_logs environ events w
  = (fst sent,
     flushed environ
       (with_send_call url key (dt_payload w1) (snd sent) (timed w w1)))
  /\ calls (flushed environ
              (with_send_call url key (dt_payload w1) (snd sent) (timed w w1)))
     = calls w1
       ++ CallSendLogs url key (dt_payload w1)
          :: flush_calls environ
               (with_send_call url key (dt_payload w1) (snd sent) (timed w w1)).
Proof.
  intros Hurl Hkey Hloop Hpayload sent.
  split.
  - rewrite process_logs_run.
    rewrite (process_logs_try_returned environ events url key w w1 Hurl Hkey Hloop).
    destruct (dt_payload w1) as [| first rest] eqn:Hp; [contradiction |].
    unfold call_send_logs, with_send_call. subst sent.
    change (dt_payload (timed w w1)) with (dt_payload w1). rewrite Hp.
    destruct (send_logs url key (first :: rest) (self_monitoring (timed w w1)))
      as [outcome sm]. reflexivity.
  - unfold flushed, with_send_call. simpl. rewrite <- app_assoc. reflexivity.
Qed.

Lemma sublist_decode_calls_no_send (extra : list Call) (events : list EventHubEvent) :
  sublist extra (decode_calls events) ->
  Forall (fun c => is_send_call c = false) extra.
Proof.
  intros Hsub. apply Forall_forall. intros c Hc.
  assert (Hin : c ∈ decode_calls events) by (eapply elem_of_sublist; eassumption).
  unfold decode_calls in Hin. apply list_elem_of_In, in_map_iff in Hin.
  destruct Hin as (event & <- & _). reflexivity.
Qed.

Lemma flush_calls_no_send (environ : gmap string string) (w : World) :
  Forall (fun c => is_send_call c = false) (flush_calls environ w).
Proof.
  unfold flush_calls. destruct (self_monitoring_enabled environ);
    repeat constructor.
Qed.

(** X17. What an invocation hands to [send_logs], whatever the events
    and however it ends. With limits that are lengths, every call of
    [send_logs] made by [process_logs] carries the URL and the access key of
    the environment and a payload that is not empty, made only of records
    that are not empty dictionaries and are within the limits (attributes of
    at most [attribute_value_length_limit] characters, content of at most
    [content_length_limit] characters); there is one such call at most. *)
Theorem only_sendable_batches_are_sent (environ : gmap string string)
    (events : list EventHubEvent) (w : World) :
  0 <= attribute_value_length_limit ->
  len DYNATRACE_LOG_INGEST_CONTENT_MARK_TRIMMED <= content_length_limit ->
  exists extra,
    calls (snd (process_logs environ events w)) = calls w ++ extra
    /\ (length (filter (fun c => Is_true (is_send_call c)) extra) <= 1)%nat
    /\ forall url key payload,
         CallSendLogs url key payload ∈ extra ->
         environ !! DYNATRACE_URL = Some url
         /\ environ !! DYNATRACE_ACCESS_KEY = Some key
         /\ payload <> []
         /\ Forall sendable payload.
Proof.
  intros Hattr Hroom.
  assert (HP : forall before sanitized w1 w2,
             sanitize before w1 = (Ok sanitized, w2) -> sanitized <> ∅ ->
             sendable sanitized).
  { intros before sanitized w1 w2 Hsan Hne. split; [exact Hne |]. split.
    - apply (sanitize_attributes_bounded before sanitized w1 w2 Hattr Hsan).
    - apply (sanitize_content_bounded before sanitized w1 w2 Hroom Hsan). }
  assert (Hnosend : forall (cs : list Call),
             Forall (fun c => is_send_call c = false) cs ->
             filter (fun c => Is_true (is_send_call c)) cs = []
             /\ forall url key payload, CallSendLogs url key payload ∉ cs).
  { intros cs Hcs. split.
    - induction Hcs as [| c cs Hc _ IH]; [reflexivity |].
      rewrite filter_cons. rewrite IH.
      destruct (decide (Is_true (is_send_call c))) as [Hd |]; [| reflexivity].
      rewrite Hc in Hd. destruct Hd.
    - intros url key payload Hin. rewrite Forall_forall in Hcs.
      specialize (Hcs _ Hin). discriminate Hcs. }
  rewrite process_logs_run. simpl.
  destruct (environ !! DYNATRACE_URL) as [url |] eqn:Hurl;
    [destruct (environ !! DYNATRACE_ACCESS_KEY) as [key |] eqn:Hkey |].
  - destruct (for_each process_event events (loop_start w)) as [[[] | e] w1] eqn:Hloop.
    + pose proof (for_each_event_step sendable events _ _ _ HP Hloop)
        as ((out & Hout & Hsendable) & (decoded & Hcalls & Hsub) & _).
      simpl in Hout, Hcalls.
      rewrite (process_logs_try_returned environ events url key w w1 Hurl Hkey Hloop).
      pose proof (sublist_decode_calls_no_send decoded events Hsub) as Hdec.
      destruct (dt_payload w1) as [| first rest] eqn:Hp.
      * exists (decoded ++ flush_calls environ (timed w w1)).
        destruct (Hnosend (decoded ++ flush_calls environ (timed w w1)))
          as [Hnone Hnotin];
          [apply Forall_app; split; [exact Hdec | apply flush_calls_no_send] |].
        split; [simpl; rewrite Hcalls, app_assoc; reflexivity |].
        split; [rewrite Hnone; simpl; lia |].
        intros u k payload Hin. exfalso. exact (Hnotin u k payload Hin).
      * unfold call_send_logs.
        destruct (send_logs url key (first :: rest) (self_monitoring (timed w w1)))
          as [outcome sm] eqn:Hsend.
        set (w2 := mkWorld sm (dt_payload (timed w w1)) (clock_reads (timed w w1))
                     (calls (timed w w1) ++ [CallSendLogs url key (first :: rest)])).
        exists (decoded ++ CallSendLogs url key (first :: rest) :: flush_calls environ w2).
        destruct (Hnosend decoded Hdec) as [Hnone1 Hnotin1].
        destruct (Hnosend (flush_calls environ w2) (flush_calls_no_send environ w2))
          as [Hnone2 Hnotin2].
        split; [simpl; rewrite Hcalls, <- !app_assoc; reflexivity |].
        split.
        -- rewrite filter_app, Hnone1.
           rewrite filter_cons_True by (simpl; exact I).
           rewrite Hnone2. simpl. lia.
        -- intros u k payload Hin.
           apply elem_of_app in Hin. destruct Hin as [Hin | Hin];
             [exfalso; exact (Hnotin1 u k payload Hin) |].
           apply elem_of_cons in Hin. destruct Hin as [Heq | Hin];
             [| exfalso; exact (Hnotin2 u k payload Hin)].
           injection Heq as -> -> ->.
           split; [reflexivity |]. split; [reflexivity |]. split; [discriminate |].
           rewrite Hout. exact Hsendable.
    + pose proof (for_each_event_step sendable events _ _ _ HP Hloop)
        as (_ & (decoded & Hcalls & Hsub) & _).
      simpl in Hcalls.
      rewrite (process_logs_try_raise environ events e w w1) by (rewrite ?Hurl, ?Hkey; eauto).
      pose proof (sublist_decode_calls_no_send decoded events Hsub) as Hdec.
      exists (decoded ++ flush_calls environ w1).
      destruct (Hnosend (decoded ++ flush_calls environ w1)) as [Hnone Hnotin];
        [apply Forall_app; split; [exact Hdec | apply flush_calls_no_send] |].
      split; [simpl; rewrite Hcalls, app_assoc; reflexivity |].
      split; [rewrite Hnone; simpl; lia |].
      intros u k payload Hin. exfalso. exact (Hnotin u k payload Hin).
  - rewrite (process_logs_try_missing environ events w (or_intror Hkey)).
    exists (flush_calls environ w).
    destruct (Hnosend (flush_calls environ w) (flush_calls_no_send environ w))
      as [Hnone Hnotin].
    split; [reflexivity |]. split; [rewrite Hnone; simpl; lia |].
    intros u k payload Hin. exfalso. exact (Hnotin u k payload Hin).
  - rewrite (process_logs_try_missing environ events w (or_introl Hurl)).
    exists (flush_calls environ w).
    destruct (Hnosend (flush_calls environ w) (flush_calls_no_send environ w))
      as [Hnone Hnotin].
    split; [reflexivity |]. split; [rewrite Hnone; simpl; lia |].
    intros u k payload Hin. exfalso. exact (Hnotin u k payload Hin).
Qed.

(** ** The age filter on records and on events *)

(** X18. What [process_record] does with a record that [parse_record]
    returned (a dictionary that is not empty). When the record has no
    [timestamp], or one that is false in a condition, the payload afterwards
    is the payload before followed by the record, and no counter has
    moved. When its timestamp is rejected by the parser the payload is
    again the payload before followed by the record, and [parsing_errors]
    has grown by one: the record is both forwarded and reported. When the
    guard answers [True] the payload is as before. *)
Theorem record_age_filter (raw : pyval) (record : list (string * pyval))
    (parsed : gmap string pyval) (w w1 : World) :
  deserialize_properties raw = Ok record ->
  parse_record record w = (Ok (Some parsed), w1) ->
  parsed <> ∅ ->
  (truthy (default PNone (parsed !! "timestamp")) = false ->
   process_record raw w = (Ok tt, append_dt_payload parsed w1)
   /\ dt_payload (snd (process_record raw w)) = dt_payload w ++ [parsed]
   /\ parsing_errors (self_monitoring (snd (process_record raw w)))
      = parsing_errors (self_monitoring w)
   /\ too_old_records (self_monitoring (snd (process_record raw w)))
      = too_old_records (self_monitoring w))
  /\ (forall e,
        truthy (default PNone (parsed !! "timestamp")) = true ->
        parser_parse_object (default PNone (parsed !! "timestamp")) = Raise e ->
        process_record raw w
        = (Ok tt, append_dt_payload parsed (set_self_monitoring incr_parsing_errors w1))
        /\ dt_payload (snd (process_record raw w)) = dt_payload w ++ [parsed]
        /\ parsing_errors (self_monitoring (snd (process_record raw w)))
           = parsing_errors (self_monitoring w) + 1
        /\ too_old_records (self_monitoring (snd (process_record raw w)))
           = too_old_records (self_monitoring w))
  /\ (forall w2,
        is_too_old (default PNone (parsed !! "timestamp")) "record" w1 = (Ok true, w2) ->
        process_record raw w = (Ok tt, w2)
        /\ dt_payload w2 = dt_payload w1
        /\ dt_payload (snd (process_record raw w)) = dt_payload w
        /\ too_old_records (self_monitoring (snd (process_record raw w)))
           = too_old_records (self_monitoring w) + 1).
Proof.
  intros Hraw Hparse Hne.
  assert (Hrun : process_record raw w
                 = match is_too_old (default PNone (parsed !! "timestamp")) "record" w1 with
                   | (Ok true, w2) => (Ok tt, w2)
                   | (Ok false, w2) => (Ok tt, append_dt_payload parsed w2)
                   | (Raise e, w2) => (Raise e, w2)
                   end).
  { unfold process_record. unfold bind at 1 2, lift. rewrite Hraw, Hparse.
    rewrite bool_decide_eq_false_2 by exact Hne.
    unfold bind, ret, modify.
    destruct (is_too_old _ "record" w1) as [[[|] | e] w2]; reflexivity. }
  destruct (parse_record_fields _ _ _ _ Hparse)
    as [[Hnone _] | (before & sanitized & Hsome & Hsan)]; [discriminate |].
  injection Hsome as <-.
  destruct (sanitize_fields _ _ _ _ Hsan) as (Hp1 & _ & _ & He1 & Ho1 & _).
  split; [| split].
  - intros Hfalsy. rewrite Hrun, (is_too_old_falsy _ _ _ Hfalsy). simpl.
    rewrite Hp1, He1, Ho1. repeat split.
  - intros e Htruthy Hreject.
    rewrite Hrun, (is_too_old_raising _ e _ _ Htruthy Hreject). simpl.
    rewrite Hp1, He1, Ho1. repeat split.
  - intros w2 Hold. rewrite Hrun, Hold.
    rewrite (is_too_old_true _ _ _ _ Hold). simpl.
    rewrite Hp1, Ho1. repeat split.
Qed.

(** X19. Staleness is monotone. If the guard finds a timestamp too old
    at some reading of the clock, it finds too old, at that reading or a
    later one, every timestamp that denotes the same instant or an earlier
    one (whatever the offsets they are written with). *)
Theorem staleness_is_monotone (s s' : string) (date date' : datetime)
    (offset offset' : Z) (log_part : string) (w w' : World) :
  s <> "" -> parser_parse s = Ok date -> utcoffset date = Some offset ->
  s' <> "" -> parser_parse s' = Ok date' -> utcoffset date' = Some offset' ->
  wall_us date' - offset' <= wall_us date - offset ->
  utc_now (clock_reads w) <= utc_now (clock_reads w') ->
  fst (is_too_old (PStr s) log_part w) = Ok true ->
  fst (is_too_old (PStr s') log_part w') = Ok true.
Proof.
  intros Hs Hp Ho Hs' Hp' Ho' Hinstant Hclock.
  rewrite (is_too_old_aware (PStr s) date offset log_part w (truthy_PStr s Hs) Hp Ho).
  rewrite (is_too_old_aware (PStr s') date' offset' log_part w'
             (truthy_PStr s' Hs') Hp' Ho').
  destruct (float_gt_int (total_seconds (age_at w date offset)) (record_age_limit - 60))
    eqn:Hold; [| discriminate].
  intros _. unfold float_gt_int in *. apply Z.gtb_lt in Hold.
  assert (Hage : age_at w date offset <= age_at w' date' offset')
    by (unfold age_at; lia).
  pose proof (total_seconds_mono _ _ Hage) as Hmono.
  replace (total_seconds (age_at w' date' offset') >? (record_age_limit - 60) * 2 ^ 72)
    with true; [reflexivity |].
  symmetry. apply Z.gtb_lt. lia.
Qed.

(** X20. The timestamp of an event is built from the wall-clock reading
    of its enqueue time cut to the second; the microseconds and the offset
    are dropped (the offset is not applied before the ["Z"] is added). Two
    enqueue times with the same reading to the second give the same
    timestamp, hence the same answer of the guard in the same world. *)
Theorem event_timestamp_drops_offset (t1 t2 : datetime) (body1 body2 : list Byte.byte)
    (w : World) :
  wall_us t1 / 1000000 = wall_us t2 / 1000000 ->
  event_timestamp (mkEvent (Some t1) body1) = event_timestamp (mkEvent (Some t2) body2)
  /\ is_too_old (event_timestamp (mkEvent (Some t1) body1)) "event" w
     = is_too_old (event_timestamp (mkEvent (Some t2) body2)) "event" w.
Proof.
  intros Hsecond.
  assert (Hsame : event_timestamp (mkEvent (Some t1) body1)
                  = event_timestamp (mkEvent (Some t2) body2)).
  { unfold event_timestamp, replace_tzinfo_None, replace_microsecond_0. simpl.
    assert (Hcut : wall_us t1 - wall_us t1 mod 1000000
                   = wall_us t2 - wall_us t2 mod 1000000).
    { pose proof (Z.div_mod (wall_us t1) 1000000).
      pose proof (Z.div_mod (wall_us t2) 1000000). lia. }
    rewrite Hcut. reflexivity. }
  split; [exact Hsame | rewrite Hsame; reflexivity].
Qed.

End FurtherProperties.

(** * The properties on the concrete runtime *)



(** The empty string is rejected by the parser, yet [is_too_old] counts no
    parsing error for it: the test [if timestamp:] fails first. *)
Lemma is_too_old_empty_string_uncounted :
  @parser_parse Demo.demo_runtime "" = Raise ParserError
  /\ @is_too_old Demo.default_config Demo.demo_runtime (PStr "") "record" Demo.fresh_world
     = (Ok false, Demo.fresh_world)
  /\ parsing_errors
       (self_monitoring
          (snd (@is_too_old Demo.default_config Demo.demo_runtime
                  (PStr "") "record" Demo.fresh_world)))
     <> parsing_errors (self_monitoring Demo.fresh_world) + 1.
Proof.
  split; [reflexivity |]. split; [reflexivity |]. vm_compute. discriminate.
Qed.

Lemma is_too_old_unparseable_witness :
  @is_too_old Demo.default_config Demo.demo_runtime
    (PStr "yesterday-ish") "record" Demo.fresh_world
  = (Ok false, set_self_monitoring incr_parsing_errors Demo.fresh_world).
Proof.
  apply (@is_too_old_unparseable Demo.default_config Demo.demo_runtime
           "yesterday-ish" ParserError "record" Demo.fresh_world);
    [discriminate | reflexivity].
Defined.

Lemma is_too_old_naive_timestamp_witness :
  @is_too_old Demo.default_config Demo.demo_runtime
    (PStr "2024-01-01T00:00:00") "record" Demo.fresh_world
  = (Ok false, set_self_monitoring incr_parsing_errors (tick_clock Demo.fresh_world)).
Proof.
  apply (@is_too_old_naive_timestamp Demo.default_config Demo.demo_runtime
           "2024-01-01T00:00:00" (mkDatetime Demo.t_2024_01_01 None)
           "record" Demo.fresh_world);
    [discriminate | reflexivity | reflexivity].
Defined.

Lemma sanitize_content_round_trip_witness :
  (exists sanitized,
      @sanitize Demo.small_config Demo.demo_runtime
        {[ "content" := PStr "short" ]} Demo.fresh_world
      = (Ok sanitized, Demo.fresh_world)
      /\ sanitized !! "content" = Some (PStr "short"))
  /\ (exists sanitized,
        @sanitize Demo.small_config Demo.demo_runtime
          Demo.long_parsed_record Demo.fresh_world
        = (Ok sanitized,
           set_self_monitoring (append_too_long_content_size 38) Demo.fresh_world)
        /\ sanitized !! "content" = Some (PStr "a con[TRUNCATED]")).
Proof.
  split.
  - apply (@sanitize_content_round_trip Demo.small_config Demo.demo_runtime
             {[ "content" := PStr "short" ]} "short" Demo.fresh_world);
      [reflexivity | vm_compute; discriminate].
  - destruct (proj2 (@sanitize_content_round_trip Demo.small_config Demo.demo_runtime
                       Demo.long_parsed_record
                       "a content well over sixteen characters"
                       Demo.fresh_world ltac:(vm_compute; reflexivity))
                ltac:(vm_compute; reflexivity) ltac:(vm_compute; discriminate))
      as (sanitized & Hrun & Hcontent & _).
    exists sanitized. split; [exact Hrun | exact Hcontent].
Defined.

(** With a content limit of 5, below the length of the marker, a second
    pass cuts the content again and records a second size; with an attribute
    limit of -1, each pass drops one more character of an attribute. *)
Lemma sanitize_twice_differs :
  @sanitize Demo.tiny_config Demo.demo_runtime Demo.letters_record Demo.fresh_world
  = (Ok Demo.letters_once, Demo.letters_once_world)
  /\ @sanitize Demo.tiny_config Demo.demo_runtime Demo.letters_once Demo.letters_once_world
     = (Ok Demo.letters_twice, Demo.letters_twice_world)
  /\ Demo.letters_once !! "content" = Some (PStr "abcd[TRUNCATED]")
  /\ Demo.letters_twice !! "content" = Some (PStr "abcd[TRUN[TRUNCATED]")
  /\ too_long_content_size (self_monitoring Demo.letters_once_world) = [10]
  /\ too_long_content_size (self_monitoring Demo.letters_twice_world) = [10; 15]
  /\ Demo.letters_twice <> Demo.letters_once
  /\ (exists once twice w1 w2,
        @sanitize Demo.negative_config Demo.demo_runtime
          {[ "name" := PStr "abcdef" ]} Demo.fresh_world = (Ok once, w1)
        /\ @sanitize Demo.negative_config Demo.demo_runtime once w1 = (Ok twice, w2)
        /\ once !! "name" = Some (PStr "abcde")
        /\ twice !! "name" = Some (PStr "abcd")).
Proof.
  split; [vm_compute; reflexivity |]. split; [vm_compute; reflexivity |].
  split; [vm_compute; reflexivity |]. split; [vm_compute; reflexivity |].
  split; [vm_compute; reflexivity |]. split; [vm_compute; reflexivity |].
  split.
  - intros Heq. apply (f_equal (fun m : gmap string pyval => m !! "content")) in Heq.
    vm_compute in Heq. discriminate Heq.
  - exists (<["name" := PStr "abcde"]> (∅ : gmap string pyval)),
           (<["name" := PStr "abcd"]> (∅ : gmap string pyval)),
           Demo.fresh_world, Demo.fresh_world.
    repeat split; vm_compute; reflexivity.
Qed.

Lemma sanitize_idempotent_witness :
  @sanitize Demo.small_config Demo.demo_runtime
    Demo.long_sanitized Demo.long_sanitized_world
  = (Ok Demo.long_sanitized, Demo.long_sanitized_world).
Proof.
  apply (@sanitize_idempotent Demo.small_config Demo.demo_runtime
           Demo.long_parsed_record Demo.long_sanitized
           Demo.fresh_world Demo.long_sanitized_world);
    [vm_compute; discriminate | vm_compute; discriminate | vm_compute; reflexivity].
Defined.

Lemma drop_filter_short_circuits_witness :
  @parse_record Demo.default_config Demo.demo_runtime
    [("resourceId", PStr "/dropped");
     ("content", PStr "a content well over sixteen characters")] Demo.fresh_world
  = (Ok None, Demo.fresh_world)
  /\ @process_record_guarded Demo.default_config Demo.demo_runtime
       Demo.dropped_record Demo.fresh_world
     = (Ok tt, Demo.fresh_world).
Proof.
  destruct (@drop_filter_short_circuits Demo.default_config Demo.demo_runtime
              [("resourceId", PStr "/dropped");
               ("content", PStr "a content well over sixteen characters")]
              {[ "cloud.provider" := PStr "Azure" ]}
              (<["azure.resource.id" := PStr "/dropped"]>
                 {[ "cloud.provider" := PStr "Azure" ]})
              Demo.fresh_world
              ltac:(reflexivity) ltac:(reflexivity) ltac:(vm_compute; reflexivity))
    as [Hparse Hrecord].
  split; [exact Hparse |].
  apply (Hrecord Demo.dropped_record). reflexivity.
Defined.

Lemma stale_event_is_skipped_witness :
  @process_event Demo.default_config Demo.demo_runtime
    (Demo.stale_event "{") Demo.fresh_world
  = (Ok tt, set_self_monitoring incr_too_old_records (tick_clock Demo.fresh_world)).
Proof.
  apply (@stale_event_is_skipped Demo.default_config Demo.demo_runtime
           (Demo.stale_event "{") Demo.fresh_world
           (set_self_monitoring incr_too_old_records (tick_clock Demo.fresh_world))).
  vm_compute. reflexivity.
Defined.

Lemma failing_record_is_isolated_witness :
  exists w_without,
    for_each (@process_record_guarded Demo.default_config Demo.demo_runtime)
      ([Demo.recent_record] ++ [Demo.other_recent_record]) Demo.fresh_world
    = (Ok tt, w_without)
    /\ for_each (@process_record_guarded Demo.default_config Demo.demo_runtime)
         ([Demo.recent_record]
          ++ Demo.broken_properties_record :: [Demo.other_recent_record])
         Demo.fresh_world
       = (Ok tt, set_self_monitoring incr_parsing_errors w_without)
    /\ map (fun parsed_record : gmap string pyval => parsed_record !! "content")
         (dt_payload (set_self_monitoring incr_parsing_errors w_without))
       = [Some (PStr "first"); Some (PStr "third")].
Proof.
  destruct (@failing_record_is_isolated Demo.default_config Demo.demo_runtime
              [Demo.recent_record] [Demo.other_recent_record]
              Demo.broken_properties_record JSONDecodeError
              Demo.fresh_world Demo.after_recent_record
              ltac:(vm_compute; reflexivity))
    as (w_without & Hwithout & Hwith & _ & _ & _ & _ & Hpayload & _).
  exists w_without. split; [exact Hwithout |]. split; [exact Hwith |].
  rewrite Hpayload. vm_compute. reflexivity.
Defined.

(** The same on a whole event: of the three records of the document, the
    first and the third reach the payload, in that order, and one parsing
    error is counted. *)
Lemma three_records_event_run :
  exists w',
    @process_event Demo.default_config Demo.demo_runtime
      (Demo.recent_event Demo.three_records_document) Demo.fresh_world
    = (Ok tt, w')
    /\ map (fun parsed_record : gmap string pyval => parsed_record !! "content")
         (dt_payload w')
       = [Some (PStr "first"); Some (PStr "third")]
    /\ parsing_errors (self_monitoring w') = 1.
Proof.
  eexists. split; [vm_compute; reflexivity |]. split; vm_compute; reflexivity.
Qed.

(** A batch of two recent events, the first with the body [{]: the
    invocation raises, no parsing error is counted, and the second event,
    whose body is a valid document with one record, is never decoded and
    gives nothing to the payload. *)
Lemma undecodable_event_fails_invocation :
  fst (@process_logs Demo.default_config Demo.demo_runtime Demo.environ
         [Demo.recent_event "{"; Demo.recent_event Demo.one_record_document]
         Demo.fresh_world)
  = Raise JSONDecodeError
  /\ parsing_errors
       (self_monitoring
          (snd (@process_logs Demo.default_config Demo.demo_runtime Demo.environ
                  [Demo.recent_event "{"; Demo.recent_event Demo.one_record_document]
                  Demo.fresh_world)))
     = 0
  /\ dt_payload
       (snd (@process_logs Demo.default_config Demo.demo_runtime Demo.environ
               [Demo.recent_event "{"; Demo.recent_event Demo.one_record_document]
               Demo.fresh_world))
     = []
  /\ ~ (exists w',
          @process_logs Demo.default_config Demo.demo_runtime Demo.environ
            [Demo.recent_event "{"; Demo.recent_event Demo.one_record_document]
            Demo.fresh_world
          = (Ok tt, w')
          /\ parsing_errors (self_monitoring w')
             = parsing_errors (self_monitoring Demo.fresh_world) + 1).
Proof.
  assert (Hrun : fst (@process_logs Demo.default_config Demo.demo_runtime Demo.environ
                        [Demo.recent_event "{";
                         Demo.recent_event Demo.one_record_document]
                        Demo.fresh_world)
                 = Raise JSONDecodeError) by (vm_compute; reflexivity).
  split; [exact Hrun |].
  split; [vm_compute; reflexivity |].
  split; [vm_compute; reflexivity |].
  intros (w' & Hok & _). rewrite Hok in Hrun. discriminate Hrun.
Qed.

Lemma undecodable_event_aborts_witness :
  @process_logs Demo.default_config Demo.demo_runtime Demo.environ
    ([Demo.recent_event Demo.one_record_document]
     ++ Demo.recent_event "{" :: [Demo.recent_event Demo.one_record_document])
    Demo.fresh_world
  = (Raise JSONDecodeError,
     flushed Demo.environ
       (with_decode_call (get_body (Demo.recent_event "{")) Demo.after_second_guard)).
Proof.
  destruct (@undecodable_event_aborts Demo.default_config Demo.demo_runtime
              Demo.environ
              [Demo.recent_event Demo.one_record_document]
              [Demo.recent_event Demo.one_record_document]
              (Demo.recent_event "{") JSONDecodeError
              Demo.fresh_world Demo.after_first_event Demo.after_second_guard
              ltac:(exists "https://example.invalid"; vm_compute; reflexivity)
              ltac:(exists "token"; vm_compute; reflexivity)
              ltac:(vm_compute; reflexivity)
              ltac:(vm_compute; reflexivity)
              ltac:(right; exists "{"; split; vm_compute; reflexivity))
    as (_ & Hlogs & _).
  exact Hlogs.
Defined.

(** ** Further properties on the concrete runtime *)

Lemma deserialize_properties_decodes_witness :
  exists updated,
    @deserialize_properties Demo.demo_runtime
      (PDict [("Properties", PStr "{}"); ("category", PStr "Audit")])
    = Ok updated
    /\ dict_get updated "properties" = Some (PDict [])
    /\ dict_get updated "Properties" = Some (PStr "{}").
Proof.
  destruct (proj1 (@deserialize_properties_decodes Demo.demo_runtime
                     [("Properties", PStr "{}"); ("category", PStr "Audit")]
                     ["properties"] [] "Properties" "{}"
                     ltac:(reflexivity)
                     ltac:(repeat constructor)
                     ltac:(reflexivity)
                     ltac:(discriminate))
              (PDict []) ltac:(reflexivity))
    as (updated & Hrun & Hproperties & Hother).
  exists updated. split; [exact Hrun |]. split; [exact Hproperties |].
  rewrite (Hother "Properties" ltac:(discriminate)). reflexivity.
Defined.

Lemma deserialize_properties_leaves_witness :
  @deserialize_properties Demo.demo_runtime
    (PDict [("properties", PDict [("a", PInt 1)]); ("Properties", PStr "{}")])
  = Ok [("properties", PDict [("a", PInt 1)]); ("Properties", PStr "{}")]
  /\ @deserialize_properties Demo.demo_runtime (PDict [("category", PStr "Audit")])
     = Ok [("category", PStr "Audit")].
Proof.
  split.
  - apply (proj1 (@deserialize_properties_leaves Demo.demo_runtime
                    [("properties", PDict [("a", PInt 1)]); ("Properties", PStr "{}")]
                    [] ["Properties"] "properties"));
      [reflexivity | constructor | reflexivity | discriminate].
  - apply (proj2 (@deserialize_properties_leaves Demo.demo_runtime
                    [("category", PStr "Audit")] [] [] ""));
      [repeat constructor | discriminate].
Defined.

Lemma non_object_records_are_counted_witness :
  exists w',
    for_each (@process_record_guarded Demo.default_config Demo.demo_runtime)
      [PStr "a"; PInt 1; PNone] Demo.fresh_world
    = (Ok tt, w')
    /\ parsing_errors (self_monitoring w') = 3
    /\ dt_payload w' = [].
Proof.
  destruct (@non_object_records_are_counted Demo.default_config Demo.demo_runtime
              [PStr "a"; PInt 1; PNone] Demo.fresh_world
              ltac:(repeat constructor))
    as (w' & Hrun & Hcount & _ & _ & Hpayload & _).
  exists w'. split; [exact Hrun |]. split; [exact Hcount | exact Hpayload].
Defined.

Lemma sanitize_attribute_values_witness :
  Demo.long_sanitized !! "retries" = Some (PStr "1234")
  /\ Demo.long_sanitized !! "timestamp" = Some (PStr "2024-01-09T23:00:00Z")
  /\ Demo.long_sanitized !! "severity" = None.
Proof.
  destruct (@sanitize_attribute_values Demo.small_config Demo.demo_runtime
              Demo.long_parsed_record Demo.long_sanitized
              Demo.fresh_world Demo.long_sanitized_world
              ltac:(vm_compute; reflexivity))
    as (Hnone & Hkeep & Hcut).
  split; [| split].
  - apply (Hcut "retries" (PInt 123456));
      [vm_compute; reflexivity | reflexivity | reflexivity].
  - apply (Hkeep "timestamp" (PStr "2024-01-09T23:00:00Z"));
      [vm_compute; reflexivity | right; left; reflexivity].
  - apply (Hnone "severity"). vm_compute. reflexivity.
Defined.

Lemma sanitize_keeps_keys_witness :
  dom Demo.long_sanitized = dom Demo.long_parsed_record.
Proof.
  apply (@sanitize_keeps_keys Demo.small_config Demo.demo_runtime
           Demo.long_parsed_record Demo.long_sanitized
           Demo.fresh_world Demo.long_sanitized_world).
  vm_compute. reflexivity.
Defined.

Lemma sanitized_within_limits_witness :
  @within_limits Demo.small_config Demo.long_sanitized.
Proof.
  apply (@sanitized_within_limits Demo.small_config Demo.demo_runtime
           Demo.long_parsed_record Demo.long_sanitized
           Demo.fresh_world Demo.long_sanitized_world);
    [vm_compute; discriminate | vm_compute; discriminate | vm_compute; reflexivity].
Defined.

Lemma truncation_below_marker_length_witness :
  exists sanitized,
    @sanitize Demo.tiny_config Demo.demo_runtime
      Demo.letters_record Demo.fresh_world
    = (Ok sanitized,
       set_self_monitoring (append_too_long_content_size 10) Demo.fresh_world)
    /\ sanitized !! "content" = Some (PStr "abcd[TRUNCATED]").
Proof.
  destruct (@truncation_below_marker_length Demo.tiny_config Demo.demo_runtime
              Demo.letters_record "abcdefghij" Demo.fresh_world
              ltac:(vm_compute; reflexivity) ltac:(discriminate)
              ltac:(vm_compute; reflexivity) ltac:(vm_compute; reflexivity))
    as (sanitized & Hrun & Hcontent & _).
  exists sanitized. split; [exact Hrun | exact Hcontent].
Defined.

Lemma non_string_content_is_serialized_witness :
  exists sanitized,
    @sanitize Demo.default_config Demo.demo_runtime
      Demo.number_record Demo.fresh_world
    = (Ok sanitized, Demo.fresh_world)
    /\ sanitized !! "content" = Some (PStr "42").
Proof.
  apply (proj1 (@non_string_content_is_serialized Demo.default_config Demo.demo_runtime
                  Demo.number_record (PInt 42) Demo.fresh_world
                  ltac:(vm_compute; reflexivity) ltac:(reflexivity) ltac:(reflexivity)));
    [vm_compute; reflexivity | vm_compute; discriminate].
Defined.

Lemma category_must_be_string_witness :
  @process_record_guarded Demo.default_config Demo.demo_runtime
    (PDict [("category", PNone); ("content", PStr "first")]) Demo.fresh_world
  = (Ok tt, set_self_monitoring incr_parsing_errors Demo.fresh_world).
Proof.
  apply (proj2 (@category_must_be_string Demo.default_config Demo.demo_runtime
                  [("category", PNone); ("content", PStr "first")]
                  {[ "cloud.provider" := PStr "Azure" ]}
                  {[ "cloud.provider" := PStr "Azure" ]}
                  (<["content" := PStr "first"]> {[ "cloud.provider" := PStr "Azure" ]})
                  PNone Demo.fresh_world
                  ltac:(reflexivity) ltac:(reflexivity) ltac:(vm_compute; reflexivity)
                  ltac:(reflexivity) ltac:(reflexivity) ltac:(reflexivity))).
  reflexivity.
Defined.

Lemma event_body_shapes_witness :
  @process_event Demo.default_config Demo.demo_runtime
    (Demo.recent_event "{}") Demo.fresh_world
  = (Ok tt,
     with_decode_call (get_body (Demo.recent_event "{}")) (tick_clock Demo.fresh_world))
  /\ @process_event Demo.default_config Demo.demo_runtime
       (Demo.recent_event "[]") Demo.fresh_world
     = (Raise AttributeError,
        with_decode_call (get_body (Demo.recent_event "[]")) (tick_clock Demo.fresh_world)).
Proof.
  split.
  - apply (proj1 (@event_body_shapes Demo.default_config Demo.demo_runtime
                    (Demo.recent_event "{}") "{}" Demo.fresh_world
                    (tick_clock Demo.fresh_world)
                    ltac:(vm_compute; reflexivity) ltac:(vm_compute; reflexivity))
             []);
      [vm_compute; reflexivity | reflexivity].
  - apply (proj1 (proj2 (@event_body_shapes Demo.default_config Demo.demo_runtime
                           (Demo.recent_event "[]") "[]" Demo.fresh_world
                           (tick_clock Demo.fresh_world)
                           ltac:(vm_compute; reflexivity) ltac:(vm_compute; reflexivity)))
             (PList []));
      [vm_compute; reflexivity | reflexivity].
Defined.

Lemma missing_configuration_fails_first_witness :
  @process_logs Demo.default_config Demo.demo_runtime
    {[ "DYNATRACE_URL" := "https://example.invalid" ]}
    [Demo.recent_event Demo.one_record_document] Demo.fresh_world
  = (Raise (ConfigurationError
              "Please set DYNATRACE_URL and DYNATRACE_ACCESS_KEY in application settings"),
     flushed {[ "DYNATRACE_URL" := "https://example.invalid" ]} Demo.fresh_world).
Proof.
  apply (@missing_configuration_fails_first Demo.default_config Demo.demo_runtime).
  right. vm_compute. reflexivity.
Defined.

Lemma empty_payload_sends_nothing_witness :
  @process_logs Demo.default_config Demo.demo_runtime Demo.environ
    [Demo.stale_event "{"] Demo.fresh_world
  = (Ok tt,
     flushed Demo.environ (@timed Demo.demo_runtime Demo.fresh_world Demo.after_stale_event)).
Proof.
  apply (@empty_payload_sends_nothing Demo.default_config Demo.demo_runtime
           Demo.environ [Demo.stale_event "{"] "https://example.invalid" "token"
           Demo.fresh_world Demo.after_stale_event);
    vm_compute; reflexivity.
Defined.

Lemma payload_is_sent_once_witness :
  calls (snd (@process_logs Demo.default_config Demo.demo_runtime Demo.environ
                [Demo.recent_event Demo.one_record_document] Demo.fresh_world))
  = [CallDecodeBody (get_body (Demo.recent_event Demo.one_record_document));
     CallSendLogs "https://example.invalid" "token" (dt_payload Demo.after_first_event);
     CallLogSelfMonitoringData
       (self_monitoring
          (@timed Demo.demo_runtime Demo.fresh_world Demo.after_first_event))].
Proof.
  destruct (@payload_is_sent_once Demo.default_config Demo.demo_runtime
              Demo.environ [Demo.recent_event Demo.one_record_document]
              "https://example.invalid" "token"
              Demo.fresh_world Demo.after_first_event
              ltac:(vm_compute; reflexivity) ltac:(vm_compute; reflexivity)
              ltac:(vm_compute; reflexivity) ltac:(vm_compute; discriminate))
    as [Hrun _].
  rewrite Hrun. vm_compute. reflexivity.
Defined.

Lemma only_sendable_batches_are_sent_witness :
  exists extra,
    calls (snd (@process_logs Demo.default_config Demo.demo_runtime Demo.environ
                  [Demo.recent_event Demo.three_records_document] Demo.fresh_world))
    = calls Demo.fresh_world ++ extra
    /\ forall url key payload,
         CallSendLogs url key payload ∈ extra ->
         payload <> [] /\ Forall (@sendable Demo.default_config) payload.
Proof.
  destruct (@only_sendable_batches_are_sent Demo.default_config Demo.demo_runtime
              Demo.environ [Demo.recent_event Demo.three_records_document]
              Demo.fresh_world
              ltac:(vm_compute; discriminate) ltac:(vm_compute; discriminate))
    as (extra & Hcalls & _ & Hsent).
  exists extra. split; [exact Hcalls |].
  intros url key payload Hin. destruct (Hsent url key payload Hin) as (_ & _ & Hne & Hall).
  split; [exact Hne | exact Hall].
Defined.

Lemma record_age_filter_witness :
  map (fun parsed_record : gmap string pyval => parsed_record !! "content")
    (dt_payload (snd (@process_record Demo.default_config Demo.demo_runtime
                        (PDict Demo.untimed_record) Demo.fresh_world)))
  = [Some (PStr "first")]
  /\ dt_payload (snd (@process_record Demo.default_config Demo.demo_runtime
                        (PDict Demo.old_record) Demo.fresh_world))
     = []
  /\ too_old_records
       (self_monitoring
          (snd (@process_record Demo.default_config Demo.demo_runtime
                  (PDict Demo.old_record) Demo.fresh_world)))
     = 1.
Proof.
  destruct (@record_age_filter Demo.default_config Demo.demo_runtime
              (PDict Demo.untimed_record) Demo.untimed_record
              (Demo.parsed_of Demo.untimed_record)
              Demo.fresh_world Demo.fresh_world
              ltac:(reflexivity) ltac:(vm_compute; reflexivity)
              ltac:(vm_compute; discriminate))
    as (Hkept & _ & _).
  destruct (Hkept ltac:(vm_compute; reflexivity)) as (_ & Hpayload & _).
  destruct (@record_age_filter Demo.default_config Demo.demo_runtime
              (PDict Demo.old_record) Demo.old_record
              (Demo.parsed_of Demo.old_record)
              Demo.fresh_world Demo.fresh_world
              ltac:(reflexivity) ltac:(vm_compute; reflexivity)
              ltac:(vm_compute; discriminate))
    as (_ & _ & Hstale).
  destruct (Hstale (set_self_monitoring incr_too_old_records (tick_clock Demo.fresh_world))
              ltac:(vm_compute; reflexivity))
    as (_ & _ & Hsame & Hcount).
  split; [rewrite Hpayload; vm_compute; reflexivity |].
  split; [rewrite Hsame; reflexivity | rewrite Hcount; reflexivity].
Defined.

Lemma staleness_is_monotone_witness :
  fst (@is_too_old Demo.default_config Demo.demo_runtime
         (PStr "2024-01-01T00:00:00Z") "record" (tick_clock Demo.fresh_world))
  = Ok true.
Proof.
  apply (@staleness_is_monotone Demo.default_config Demo.demo_runtime
           "2024-01-01T00:00:00Z" "2024-01-01T00:00:00Z"
           (mkDatetime Demo.t_2024_01_01 (Some 0)) (mkDatetime Demo.t_2024_01_01 (Some 0))
           0 0 "record" Demo.fresh_world (tick_clock Demo.fresh_world));
    try discriminate; try reflexivity; vm_compute; discriminate.
Defined.

Lemma event_timestamp_drops_offset_witness :
  @event_timestamp Demo.demo_runtime (Demo.stale_event "{")
  = @event_timestamp Demo.demo_runtime
      (mkEvent (Some (mkDatetime Demo.t_2024_01_01 (Some 3600000000))) []).
Proof.
  apply (@event_timestamp_drops_offset Demo.default_config Demo.demo_runtime
           (mkDatetime (Demo.t_2024_01_01 + 123456) (Some 0))
           (mkDatetime Demo.t_2024_01_01 (Some 3600000000))
           (list_byte_of_string "{") [] Demo.fresh_world).
  vm_compute. reflexivity.
Defined.
